(** * Two-tower retrieval model (two_tower_base_retrieval.py)

    A shallow embedding of [UserHistoryEncoder] and [TwoTowerBaseRetrieval].

    Conventions of the embedding.
    - A torch tensor is a shape together with an index function; the
      operations below check shapes the way torch does and raise the
      exception torch raises.
    - Numbers are real numbers: rounding and overflow of IEEE floats are
      not modelled.  Division keeps its IEEE special case: a division by
      zero gives a non-finite value (NaN or an infinity), see [fnum].
    - A Python instance is its attribute dictionary; methods look
      attributes up by name.
    - Learned parameters (initialised at random by torch) are inputs of
      the constructors. *)

From Stdlib Require Import Reals Lra Lia List ZArith.
From stdpp Require Import gmap strings.
Import ListNotations.

(** ** Exceptions and results *)

Inductive type_error :=
  | MultipleValues (param : string)
  | UnexpectedKeyword (kw : string)
  | TooManyPositional
  | MissingArgument (param : string)
  | BadOperand.

Inductive runtime_error :=
  | SizeMismatch
  | RankMismatch
  | EmptyReduction
  | EmptyTensorList
  | Unsupported.

Inductive exn :=
  | TypeError (k : type_error)
  | AttributeError (name : string)
  | IndexError
  | RuntimeError (k : runtime_error)
  | ValueError
  | AssertionError.

Inductive result (A : Type) :=
  | Ok (a : A)
  | Raise (e : exn).
Arguments Ok {A} a.
Arguments Raise {A} e.

Definition bind {A B} (r : result A) (k : A -> result B) : result B :=
  match r with
  | Ok a => k a
  | Raise e => Raise e
  end.

Notation "'let!' x ':=' e 'in' k" := (bind e (fun x => k))
  (at level 10, x pattern, e at level 100, k at level 200).

Definition returns {A} (r : result A) : Prop := exists a, r = Ok a.
Definition raises {A} (r : result A) : Prop := exists e, r = Raise e.

(** ** Numbers *)

Open Scope R_scope.

(** The result of a float division and of what is computed from it:
    a finite number, or a NaN or an infinity.  Addition and multiplication
    with a non-finite operand, and its division by a non-zero count, stay
    non-finite. *)
Inductive fnum :=
  | Finite (r : R)
  | NonFinite.

Definition fdiv (a b : R) : fnum :=
  if Req_dec_T b 0 then NonFinite else Finite (a / b).

Definition fmul (c : R) (x : fnum) : fnum :=
  match x with
  | Finite r => Finite (c * r)
  | NonFinite => NonFinite
  end.

Definition fadd (x y : fnum) : fnum :=
  match x, y with
  | Finite a, Finite b => Finite (a + b)
  | _, _ => NonFinite
  end.

Definition fsum (l : list fnum) : fnum := fold_right fadd (Finite 0) l.

(** [torch.mean] of all elements: 0/0 = NaN when there are none. *)
Definition fmean (l : list fnum) : fnum :=
  match l with
  | [] => NonFinite
  | _ :: _ =>
      match fsum l with
      | Finite s => Finite (s / INR (length l))
      | NonFinite => NonFinite
      end
  end.

Definition rsum (n : nat) (f : nat -> R) : R :=
  fold_right Rplus 0 (map f (seq 0 n)).

(** ** Tensors *)

Record tensor (A : Type) := Tensor {
  shape : list nat;
  entry : list nat -> A
}.
Arguments Tensor {A} shape entry.
Arguments shape {A} t.
Arguments entry {A} t ix.

(** All indices of a shape, in row-major order. *)
Fixpoint indices (s : list nat) : list (list nat) :=
  match s with
  | [] => [[]]
  | n :: s' => flat_map (fun i => map (cons i) (indices s')) (seq 0 n)
  end.

Definition flat {A} (t : tensor A) : list A :=
  map (entry t) (indices (shape t)).

Definition rank {A} (t : tensor A) : nat := length (shape t).

Definition shape_eqb (s1 s2 : list nat) : bool :=
  bool_decide (s1 = s2).

Definition scalar {A} (x : A) : tensor A := Tensor [] (fun _ => x).

Definition tmap {A B} (f : A -> B) (t : tensor A) : tensor B :=
  Tensor (shape t) (fun ix => f (entry t ix)).

(** *** Broadcasting *)

(** Shapes are aligned at their last axis; sizes must agree or be 1. *)
Fixpoint broadcast_rev (r1 r2 : list nat) : option (list nat) :=
  match r1, r2 with
  | [], r => Some r
  | r, [] => Some r
  | a :: r1', b :: r2' =>
      match broadcast_rev r1' r2' with
      | None => None
      | Some r =>
          if (a =? b)%nat then Some (a :: r)
          else if (a =? 1)%nat then Some (b :: r)
          else if (b =? 1)%nat then Some (a :: r)
          else None
      end
  end.

Definition broadcast_shapes (s1 s2 : list nat) : option (list nat) :=
  match broadcast_rev (rev s1) (rev s2) with
  | Some r => Some (rev r)
  | None => None
  end.

(** The index of an operand of shape [s] under a broadcast index [ix]. *)
Definition project (s : list nat) (ix : list nat) : list nat :=
  zip_with (fun n i => if (n =? 1)%nat then 0%nat else i) s
           (drop (length ix - length s) ix).

Definition map2_broadcast {A B C} (f : A -> B -> C)
    (a : tensor A) (b : tensor B) : result (tensor C) :=
  match broadcast_shapes (shape a) (shape b) with
  | Some s =>
      Ok (Tensor s (fun ix =>
            f (entry a (project (shape a) ix)) (entry b (project (shape b) ix))))
  | None => Raise (RuntimeError SizeMismatch)
  end.

(** *** Shape operations *)

(** [t.unsqueeze(0)] *)
Definition unsqueeze0 {A} (t : tensor A) : tensor A :=
  Tensor (1%nat :: shape t) (fun ix => entry t (tail ix)).

(** [t.flip([0])] *)
Definition flip0 {A} (t : tensor A) : result (tensor A) :=
  match shape t with
  | [] => Raise IndexError
  | n :: _ =>
      Ok (Tensor (shape t) (fun ix =>
            match ix with
            | i :: ix' => entry t ((n - 1 - i)%nat :: ix')
            | [] => entry t ix
            end))
  end.

(** [t.permute(1, 0, 2)] *)
Definition permute102 {A} (t : tensor A) : result (tensor A) :=
  match shape t with
  | [a; b; c] =>
      Ok (Tensor [b; a; c] (fun ix =>
            match ix with
            | i :: j :: ix' => entry t (j :: i :: ix')
            | _ => entry t ix
            end))
  | _ => Raise (RuntimeError RankMismatch)
  end.

(** [t.t()] *)
Definition transpose {A} (t : tensor A) : result (tensor A) :=
  match shape t with
  | [] | [_] => Ok t
  | [a; b] =>
      Ok (Tensor [b; a] (fun ix =>
            match ix with
            | i :: j :: ix' => entry t (j :: i :: ix')
            | _ => entry t ix
            end))
  | _ => Raise (RuntimeError RankMismatch)
  end.

(** [t.select(d, i)]: the slice at index [i] of axis [d]. *)
Definition select {A} (d i : nat) (t : tensor A) : result (tensor A) :=
  match shape t !! d with
  | None => Raise IndexError
  | Some n =>
      if (i <? n)%nat then
        Ok (Tensor (take d (shape t) ++ drop (S d) (shape t))
                   (fun ix => entry t (take d ix ++ i :: drop d ix)))
      else Raise IndexError
  end.

(** [t[:, 0, :]]: three index expressions need three axes. *)
Definition index_all_0_all {A} (t : tensor A) : result (tensor A) :=
  if (rank t <? 3)%nat then Raise IndexError else select 1 0 t.

(** [t.squeeze(d)]: drops axis [d] when its size is 1, else no change. *)
Definition squeeze {A} (d : nat) (t : tensor A) : result (tensor A) :=
  match shape t !! d with
  | None => Raise IndexError
  | Some n =>
      if (n =? 1)%nat then
        Ok (Tensor (take d (shape t) ++ drop (S d) (shape t))
                   (fun ix => entry t (take d ix ++ 0%nat :: drop d ix)))
      else Ok t
  end.

(** [torch.mean(t, dim=d)].  Over an axis of size 0 torch gives NaN;
    [forward] takes this mean only after [t[:, 0, :]] succeeded, when the
    axis is not empty. *)
Definition mean_dim (d : nat) (t : tensor R) : result (tensor R) :=
  match shape t !! d with
  | None => Raise IndexError
  | Some n =>
      Ok (Tensor (take d (shape t) ++ drop (S d) (shape t))
                 (fun ix =>
                    rsum n (fun k => entry t (take d ix ++ k :: drop d ix))
                    / INR n))
  end.

(** [torch.stack(ts, dim=d)] *)
Definition stack {A} (ts : list (tensor A)) (d : nat) : result (tensor A) :=
  match ts with
  | [] => Raise (RuntimeError EmptyTensorList)
  | t0 :: _ =>
      if forallb (fun t => shape_eqb (shape t) (shape t0)) ts then
        if (d <=? rank t0)%nat then
          Ok (Tensor (take d (shape t0) ++ length ts :: drop d (shape t0))
                     (fun ix =>
                        entry (nth (nth d ix 0%nat) ts t0)
                              (take d ix ++ drop (S d) ix)))
        else Raise IndexError
      else Raise (RuntimeError SizeMismatch)
  end.

(** [torch.cat(ts, dim=d)].  Tensors of shape [[0]] are skipped, as torch
    does; the others need one rank and equal sizes off axis [d]. *)
Definition legacy_empty {A} (t : tensor A) : bool := shape_eqb (shape t) [0%nat].

Fixpoint cat_entry {A} (ts : list (tensor A)) (d : nat) (t0 : tensor A)
    (ix : list nat) : A :=
  match ts with
  | [] => entry t0 ix
  | t :: ts' =>
      let n := nth d (shape t) 0%nat in
      let k := nth d ix 0%nat in
      if (k <? n)%nat then entry t ix
      else cat_entry ts' d t0 (<[d := (k - n)%nat]> ix)
  end.

Definition same_off_axis (d : nat) (s1 s2 : list nat) : bool :=
  shape_eqb (<[d := 0%nat]> s1) (<[d := 0%nat]> s2).

Definition cat {A} (ts : list (tensor A)) (d : nat) : result (tensor A) :=
  match ts with
  | [] => Raise (RuntimeError EmptyTensorList)
  | tfirst :: _ =>
      match List.filter (fun t => negb (legacy_empty t)) ts with
      | [] => Ok tfirst
      | (t0 :: _) as ts' =>
          if negb (forallb (fun t => (rank t =? rank t0)%nat) ts') then
            Raise (RuntimeError RankMismatch)
          else if negb (d <? rank t0)%nat then Raise IndexError
          else if negb (forallb (fun t => same_off_axis d (shape t) (shape t0)) ts')
          then Raise (RuntimeError SizeMismatch)
          else
            Ok (Tensor (<[d := sum_list (map (fun t => nth d (shape t) 0%nat) ts')]>
                          (shape t0))
                       (cat_entry ts' d t0))
      end
  end.

(** *** Numeric operations *)

(** [torch.tensor(l)] for a list of floats, and [torch.arange(n)]. *)
Definition tensor_of_list (l : list R) : tensor R :=
  Tensor [length l] (fun ix => nth (nth 0 ix 0%nat) l 0).

Definition arange (n : nat) : tensor Z :=
  Tensor [n] (fun ix => Z.of_nat (nth 0 ix 0%nat)).

(** [torch.matmul] for operands of one or two axes (batched products of
    more axes are not modelled and are not used by the model's shapes). *)
Definition matmul (a b : tensor R) : result (tensor R) :=
  match shape a, shape b with
  | [m], [m'] =>
      if (m =? m')%nat then
        Ok (Tensor [] (fun _ => rsum m (fun k => entry a [k] * entry b [k])))
      else Raise (RuntimeError SizeMismatch)
  | [n; m], [m'] =>
      if (m =? m')%nat then
        Ok (Tensor [n] (fun ix =>
              rsum m (fun k => entry a [nth 0 ix 0%nat; k] * entry b [k])))
      else Raise (RuntimeError SizeMismatch)
  | [m], [m'; p] =>
      if (m =? m')%nat then
        Ok (Tensor [p] (fun ix =>
              rsum m (fun k => entry a [k] * entry b [k; nth 0 ix 0%nat])))
      else Raise (RuntimeError SizeMismatch)
  | [n; m], [m'; p] =>
      if (m =? m')%nat then
        Ok (Tensor [n; p] (fun ix =>
              rsum m (fun k => entry a [nth 0 ix 0%nat; k]
                               * entry b [k; nth 1 ix 0%nat])))
      else Raise (RuntimeError SizeMismatch)
  | [], _ | _, [] => Raise (RuntimeError RankMismatch)
  | _, _ => Raise (RuntimeError Unsupported)
  end.

(** [F.cross_entropy(input, target, reduction="none")] on a batch of
    rows: minus the log-softmax of each row at its target class. *)
Definition in_range (n : nat) (z : Z) : bool :=
  ((0 <=? z)%Z && (z <? Z.of_nat n)%Z)%bool.

Definition log_softmax_at (input : tensor R) (c : nat) (i j : nat) : R :=
  entry input [i; j] - ln (rsum c (fun k => exp (entry input [i; k]))).

Definition cross_entropy (input : tensor R) (target : tensor Z)
    : result (tensor R) :=
  match shape input with
  | [b; c] =>
      if negb (shape_eqb (shape target) [b]) then Raise ValueError
      else if negb (forallb (in_range c) (flat target)) then Raise IndexError
      else
        Ok (Tensor [b] (fun ix =>
              let i := nth 0 ix 0%nat in
              - log_softmax_at input c i (Z.to_nat (entry target [i]))))
  | _ => Raise (RuntimeError RankMismatch)
  end.

(** [F.mse_loss(input, target, reduction="mean")] *)
Definition mse_loss (input target : tensor R) : result fnum :=
  let! d := map2_broadcast (fun x y => (x - y) * (x - y)) input target in
  Ok (fmean (map Finite (flat d))).

(** [torch.clamp(t, min=0)] *)
Definition clamp_min0 (t : tensor R) : tensor R := tmap (fun x => Rmax x 0) t.

(** [torch.max(t)]: the largest element; an empty tensor is an error. *)
Definition tensor_max (t : tensor R) : result R :=
  match flat t with
  | [] => Raise (RuntimeError EmptyReduction)
  | x :: xs => Ok (fold_left Rmax xs x)
  end.

(** [t / m] for a 0-dimensional [m]. *)
Definition div_scalar (t : tensor R) (m : R) : tensor fnum :=
  tmap (fun x => fdiv x m) t.

(** [torch.mean(t)] *)
Definition tensor_mean (t : tensor fnum) : fnum := fmean (flat t).

(** ** Layers *)

(** [nn.Embedding]: a table of [num_embeddings] rows. *)
Record Embedding := {
  num_embeddings : nat;
  embedding_dim : nat;
  weight : nat -> nat -> R
}.

Definition embedding (e : Embedding) (idx : tensor Z) : result (tensor R) :=
  if forallb (in_range (num_embeddings e)) (flat idx) then
    Ok (Tensor (shape idx ++ [embedding_dim e])
               (fun ix => weight e (Z.to_nat (entry idx (removelast ix)))
                                   (List.last ix 0%nat)))
  else Raise IndexError.

(** [nn.Linear]: [y = x W^T + b] on the last axis. *)
Record Linear := {
  in_features : nat;
  out_features : nat;
  lweight : nat -> nat -> R;
  lbias : nat -> R
}.

Definition linear (l : Linear) (x : tensor R) : result (tensor R) :=
  match shape x with
  | [] => Raise (RuntimeError RankMismatch)
  | _ :: _ =>
      if (List.last (shape x) 0%nat =? in_features l)%nat then
        Ok (Tensor (removelast (shape x) ++ [out_features l])
                   (fun ix =>
                      rsum (in_features l)
                           (fun k => entry x (removelast ix ++ [k])
                                     * lweight l (List.last ix 0%nat) k)
                      + lbias l (List.last ix 0%nat)))
      else Raise (RuntimeError SizeMismatch)
  end.

(** ** Python instances *)

(** Values an attribute can hold. *)
Inductive attr :=
  | AInt (z : Z)
  | ABool (b : bool)
  | ATensor (t : tensor R)
  | AEmbedding (e : Embedding)
  | ALinear (l : Linear)
  | AModule (f : tensor R -> result (tensor R))
  | AAttention (f : tensor R -> tensor R -> tensor R
                    -> result (tensor R * tensor R))
  | AKnn (f : tensor R -> Z -> result (tensor Z))
  | AMethod (name : string).

(** [self.name]: the instance dictionary first, then the class; a name in
    neither raises AttributeError. *)
Definition getattr (methods : list string) (self : gmap string attr)
    (name : string) : result attr :=
  match self !! name with
  | Some a => Ok a
  | None =>
      if bool_decide (name ∈ methods) then Ok (AMethod name)
      else Raise (AttributeError name)
  end.

Definition as_int (a : attr) : result Z :=
  match a with AInt z => Ok z | _ => Raise (TypeError BadOperand) end.
Definition as_bool (a : attr) : result bool :=
  match a with ABool b => Ok b | _ => Raise (TypeError BadOperand) end.
Definition as_tensor (a : attr) : result (tensor R) :=
  match a with ATensor t => Ok t | _ => Raise (TypeError BadOperand) end.

(** [callee(x)] for a module attribute. *)
Definition call_module (callee : attr) (x : tensor R) : result (tensor R) :=
  match callee with
  | AEmbedding _ => Raise (TypeError BadOperand)
  | ALinear l => linear l x
  | AModule f => f x
  | _ => Raise (TypeError BadOperand)
  end.

Definition call_embedding (callee : attr) (idx : tensor Z)
    : result (tensor R) :=
  match callee with
  | AEmbedding e => embedding e idx
  | _ => Raise (TypeError BadOperand)
  end.

Definition call_attention (callee : attr) (q k v : tensor R)
    : result (tensor R * tensor R) :=
  match callee with
  | AAttention f => f q k v
  | _ => Raise (TypeError BadOperand)
  end.

Definition call_knn (callee : attr) (x : tensor R) (n : Z)
    : result (tensor Z) :=
  match callee with
  | AKnn f => f x n
  | _ => Raise (TypeError BadOperand)
  end.

(** ** Calling Python functions *)

(** Arguments a call passes around. *)
Inductive value :=
  | VInt (z : Z)
  | VInstance (self : gmap string attr)
  | VTensor (t : tensor R).

(** A [def]: its parameter names, in order, and its body over the bound
    parameters. *)
Record pyfunction := {
  fparams : list string;
  fbody : gmap string value -> result value
}.

(** Positional arguments fill the parameters from the left. *)
Fixpoint bind_positional (params : list string) (args : list value)
    : gmap string value :=
  match params, args with
  | p :: params', a :: args' => <[p := a]> (bind_positional params' args')
  | _, _ => ∅
  end.

(** Keyword arguments next: a name that is no parameter, or a parameter
    that already has a value, is a TypeError. *)
Fixpoint bind_keywords (params : list string) (kwargs : list (string * value))
    (env : gmap string value) : result (gmap string value) :=
  match kwargs with
  | [] => Ok env
  | (k, v) :: kwargs' =>
      if bool_decide (k ∈ params) then
        match env !! k with
        | Some _ => Raise (TypeError (MultipleValues k))
        | None => bind_keywords params kwargs' (<[k := v]> env)
        end
      else Raise (TypeError (UnexpectedKeyword k))
  end.

Definition bind_args (params : list string) (args : list value)
    (kwargs : list (string * value)) : result (gmap string value) :=
  let! env := bind_keywords params kwargs (bind_positional params args) in
  if (length params <? length args)%nat then Raise (TypeError TooManyPositional)
  else
    match filter (fun p => env !! p = None) params with
    | p :: _ => Raise (TypeError (MissingArgument p))
    | [] => Ok env
    end.

Definition call_function (f : pyfunction) (args : list value)
    (kwargs : list (string * value)) : result value :=
  let! env := bind_args (fparams f) args kwargs in
  fbody f env.

(** [self.name(args, kwargs)] for a function [name] of the class: the
    bound method passes the instance as first positional argument. *)
Definition call_method (class : list (string * pyfunction))
    (self : gmap string attr) (name : string)
    (args : list value) (kwargs : list (string * value)) : result value :=
  let! m := getattr (map fst class) self name in
  match m with
  | AMethod n =>
      match list_to_map (M := gmap string pyfunction) class !! n with
      | Some f => call_function f (VInstance self :: args) kwargs
      | None => Raise (AttributeError n)
      end
  | _ => Raise (TypeError BadOperand)
  end.

Definition arg_int (env : gmap string value) (p : string) : result Z :=
  match env !! p with
  | Some (VInt z) => Ok z
  | _ => Raise (TypeError BadOperand)
  end.

Definition value_tensor (v : value) : result (tensor R) :=
  match v with
  | VTensor t => Ok t
  | _ => Raise (TypeError BadOperand)
  end.

(** ** UserHistoryEncoder *)

(** [torch.zeros(h, d)] and [PE[pos, i] = v]. *)
Definition zeros (s : list nat) : tensor R := Tensor s (fun _ => 0).

Definition setitem (t : tensor R) (ix : list nat) (v : R)
    : result (tensor R) :=
  if bool_decide (Forall2 lt ix (shape t)) then
    Ok (Tensor (shape t)
               (fun ix' => if bool_decide (ix' = ix) then v else entry t ix'))
  else Raise IndexError.

(** [range(0, d, 2)] *)
Definition range_step2 (d : nat) : list nat :=
  map (fun k => (2 * k)%nat) (seq 0 ((d + 1) / 2)).

Fixpoint for_each {S A} (l : list A) (body : S -> A -> result S) (s : S)
    : result S :=
  match l with
  | [] => Ok s
  | x :: l' => let! s' := body s x in for_each l' body s'
  end.

(** [pos / (10000 ** ((2 * i) / d_model))] *)
Definition angle (pos i d_model : nat) : R :=
  INR pos / Rpower 10000 (INR (2 * i) / INR d_model).

(** The body of the loop over [i], and the loop itself for one [pos]. *)
Definition positional_encoding_body (d_model pos : nat) (PE : tensor R)
    (i : nat) : result (tensor R) :=
  let! PE := setitem PE [pos; i] (sin (angle pos i d_model)) in
  if (i + 1 <? d_model)%nat then
    setitem PE [pos; (i + 1)%nat] (cos (angle pos (i + 1) d_model))
  else Ok PE.

Definition positional_encoding_row (d_model : nat) (PE : tensor R)
    (pos : nat) : result (tensor R) :=
  for_each (range_step2 d_model) (positional_encoding_body d_model pos) PE.

Definition positional_encoding (seq_len d_model : nat) : result (tensor R) :=
  let PE := zeros [seq_len; d_model] in
  for_each (seq 0 seq_len) (positional_encoding_row d_model) PE.

(** [def positional_encoding(seq_len, d_model)]: two parameters, no
    [self]. [torch.zeros] wants non-negative integer sizes. *)
Definition positional_encoding_def : pyfunction := {|
  fparams := ["seq_len"; "d_model"];
  fbody := fun env =>
    let! seq_len := arg_int env "seq_len" in
    let! d_model := arg_int env "d_model" in
    if ((seq_len <? 0)%Z || (d_model <? 0)%Z)%bool then
      Raise (RuntimeError SizeMismatch)
    else
      let! PE := positional_encoding (Z.to_nat seq_len) (Z.to_nat d_model) in
      Ok (VTensor PE)
|}.

Definition UserHistoryEncoder : list (string * pyfunction) :=
  [("positional_encoding", positional_encoding_def)].

(** [UserHistoryEncoder.__init__]; [MultiheadAttention] stands for the
    constructor of [nn.MultiheadAttention]. *)
Definition UserHistoryEncoder_init (MultiheadAttention : Z -> Z -> result attr)
    (item_id_embedding_dim history_len num_heads : Z)
    : result (gmap string attr) :=
  let self : gmap string attr := ∅ in
  let self := <["item_id_embedding_dim" := AInt item_id_embedding_dim]> self in
  let self := <["history_len" := AInt history_len]> self in
  let self := <["num_heads" := AInt num_heads]> self in
  let! pe := call_method UserHistoryEncoder self "positional_encoding" []
               [("seq_len", VInt history_len);
                ("d_model", VInt item_id_embedding_dim)] in
  let! pe := value_tensor pe in
  let self := <["positional_embeddings" := ATensor pe]> self in
  let! pe := bind (getattr (map fst UserHistoryEncoder) self
                           "positional_embeddings") as_tensor in
  let! pe := flip0 pe in
  let self := <["positional_embeddings" := ATensor pe]> self in
  let! mha := MultiheadAttention item_id_embedding_dim num_heads in
  Ok (<["multihead_attn" := mha]> self).

(** [UserHistoryEncoder.forward] *)
Definition UserHistoryEncoder_forward (self : gmap string attr)
    (user_history : tensor R) : result (tensor R) :=
  let! pe := bind (getattr (map fst UserHistoryEncoder) self
                           "positional_embeddings") as_tensor in
  let! user_history := map2_broadcast Rplus user_history (unsqueeze0 pe) in
  let! mha := getattr (map fst UserHistoryEncoder) self "multihead_attn" in
  let! query := permute102 user_history in
  let! key := permute102 user_history in
  let! val := permute102 user_history in
  let! (attn_output, _) := call_attention mha query key val in
  let! attn_output := permute102 attn_output in
  let! first_item := bind (index_all_0_all attn_output) (squeeze 1) in
  let! mean_value := mean_dim 1 attn_output in
  let! user_history_summary := stack [first_item; mean_value] 1 in
  Ok user_history_summary.

(** ** TwoTowerBaseRetrieval *)

(** The values torch draws for the learned parameters at construction. *)
Record parameters := {
  user_id_embedding_weight : nat -> nat -> R;
  item_id_embedding_weight : nat -> nat -> R;
  user_features_weight : nat -> nat -> R;
  user_features_bias : nat -> R;
  user_tower_weight : nat -> nat -> R;
  user_tower_bias : nat -> R;
  item_features_weight : nat -> nat -> R;
  item_features_bias : nat -> R;
  item_tower_weight : nat -> nat -> R;
  item_tower_bias : nat -> R;
  position_bias_weight : nat -> nat -> R
}.

(** The functions of the class (those of [nn.Module] are not listed; none
    is named like an attribute read below). *)
Definition TwoTowerBaseRetrieval : list string :=
  ["compute_user_embedding"; "compute_item_embeddings"; "forward";
   "train_forward"].

(** [TwoTowerBaseRetrieval.__init__] *)
Definition TwoTowerBaseRetrieval_init (theta : parameters) (num_items : Z)
    (user_id_hash_size user_id_embedding_dim user_features_size : nat)
    (item_id_hash_size item_id_embedding_dim item_features_size : nat)
    (user_value_weights : list R) (knn_module : attr)
    (enable_position_debiasing : bool) : gmap string attr :=
  let self : gmap string attr := ∅ in
  let self := <["num_items" := AInt num_items]> self in
  let self :=
    <["user_value_weights" := ATensor (tensor_of_list user_value_weights)]> self in
  let self := <["knn_module" := knn_module]> self in
  let self :=
    <["enable_position_debiasing" := ABool enable_position_debiasing]> self in
  let self :=
    <["user_id_embedding_arch" :=
        AEmbedding {| num_embeddings := user_id_hash_size;
                      embedding_dim := user_id_embedding_dim;
                      weight := user_id_embedding_weight theta |}]> self in
  let self :=
    <["item_id_embedding_arch" :=
        AEmbedding {| num_embeddings := item_id_hash_size;
                      embedding_dim := item_id_embedding_dim;
                      weight := item_id_embedding_weight theta |}]> self in
  let self :=
    <["user_features_arch" :=
        ALinear {| in_features := user_features_size;
                   out_features := user_id_embedding_dim;
                   lweight := user_features_weight theta;
                   lbias := user_features_bias theta |}]> self in
  let self :=
    <["user_tower_arch" :=
        ALinear {| in_features :=
                     2 * user_id_embedding_dim + item_id_embedding_dim;
                   out_features := user_id_embedding_dim;
                   lweight := user_tower_weight theta;
                   lbias := user_tower_bias theta |}]> self in
  let self :=
    <["item_features_arch" :=
        ALinear {| in_features := item_features_size;
                   out_features := item_id_embedding_dim;
                   lweight := item_features_weight theta;
                   lbias := item_features_bias theta |}]> self in
  let self :=
    <["item_tower_arch" :=
        ALinear {| in_features := item_id_embedding_dim;
                   out_features := item_id_embedding_dim;
                   lweight := item_tower_weight theta;
                   lbias := item_tower_bias theta |}]> self in
  if enable_position_debiasing then
    <["position_bias_net_user_value" :=
        AEmbedding {| num_embeddings := 100;
                      embedding_dim := 1;
                      weight := position_bias_weight theta |}]> self
  else self.

Definition compute_user_embedding (self : gmap string attr)
    (user_id : tensor Z) (user_features : tensor R) (user_history : tensor Z)
    : result (tensor R) :=
  let! arch := getattr TwoTowerBaseRetrieval self "item_id_embedding_arch" in
  let! user_history_embedding := call_embedding arch user_history in
  let! arch := getattr TwoTowerBaseRetrieval self "user_history_encoder" in
  let! user_history_summary := call_module arch user_history_embedding in
  let! arch := getattr TwoTowerBaseRetrieval self "user_id_embedding_arch" in
  let! user_id_embedding := call_embedding arch user_id in
  let! arch := getattr TwoTowerBaseRetrieval self "user_features_arch" in
  let! user_features_embedding := call_module arch user_features in
  let! user_tower_input :=
    cat [user_id_embedding; user_features_embedding; user_history_summary] 1 in
  let! arch := getattr TwoTowerBaseRetrieval self "user_tower_arch" in
  let! user_embedding := call_module arch user_tower_input in
  Ok user_embedding.

Definition compute_item_embeddings (self : gmap string attr)
    (item_id : tensor Z) (item_features : tensor R) : result (tensor R) :=
  let! arch := getattr TwoTowerBaseRetrieval self "item_id_embedding_arch" in
  let! item_id_embedding := call_embedding arch item_id in
  let! arch := getattr TwoTowerBaseRetrieval self "item_features_arch" in
  let! item_features_embedding := call_module arch item_features in
  let! item_tower_input :=
    cat [item_id_embedding; item_features_embedding] 1 in
  let! arch := getattr TwoTowerBaseRetrieval self "item_tower_arch" in
  let! item_embedding := call_module arch item_tower_input in
  Ok item_embedding.

Definition forward (self : gmap string attr)
    (user_id : tensor Z) (user_features : tensor R) (user_history : tensor Z)
    : result (tensor Z) :=
  let! user_embedding :=
    compute_user_embedding self user_id user_features user_history in
  let! knn := getattr TwoTowerBaseRetrieval self "knn_module" in
  let! num_items :=
    bind (getattr TwoTowerBaseRetrieval self "num_items") as_int in
  let! top_items := call_knn knn user_embedding num_items in
  Ok top_items.

(** Line 290 of [train_forward]:
    [torch.clamp(net_user_value, min=0) / torch.max(net_user_value)].
    Both operands read the same, not yet clamped, [net_user_value]. *)
Definition normalize_net_user_value (net_user_value : tensor R)
    : result (tensor fnum) :=
  let clamped := clamp_min0 net_user_value in
  let! m := tensor_max net_user_value in
  Ok (div_scalar clamped m).

(** [train_forward] after its first two statements, in the order of the
    source.  Lines 250 to 269: the score of every user against every item
    of the batch and the unreduced softmax loss against the diagonal. *)
Definition softmax_loss (user_embedding item_embeddings : tensor R)
    : result (tensor R) :=
  let! item_embeddings_t := transpose item_embeddings in
  let! scores := matmul user_embedding item_embeddings_t in
  let! b := match shape scores with
            | b :: _ => Ok b
            | [] => Raise IndexError
            end in
  let target := arange b in
  cross_entropy scores target.

(** Lines 271 to 285: the net user value, its position bias removed when
    debiasing is enabled, and the position-bias loss (read only when
    debiasing is enabled). *)
Definition debiased_net_user_value (self : gmap string attr)
    (position : tensor Z) (labels : tensor R) : result (tensor R * fnum) :=
  let! user_value_weights :=
    bind (getattr TwoTowerBaseRetrieval self "user_value_weights") as_tensor in
  let! net_user_value := matmul labels user_value_weights in
  let! enable_position_debiasing :=
    bind (getattr TwoTowerBaseRetrieval self "enable_position_debiasing")
         as_bool in
  if enable_position_debiasing then
    let! arch :=
      getattr TwoTowerBaseRetrieval self "position_bias_net_user_value" in
    let! position_bias := bind (call_embedding arch position) (squeeze 1) in
    let! position_bias_loss := mse_loss net_user_value position_bias in
    let! net_user_value :=
      map2_broadcast Rminus net_user_value position_bias in
    Ok (net_user_value, position_bias_loss)
  else Ok (net_user_value, Finite 0).

(** Lines 287 to 294: the loss weighted by the normalised net user value,
    then its mean. *)
Definition weighted_mean_loss (loss net_user_value : tensor R)
    : result fnum :=
  let! net_user_value := normalize_net_user_value net_user_value in
  let! loss := map2_broadcast fmul loss net_user_value in
  Ok (tensor_mean loss).

Definition train_forward_loss (self : gmap string attr)
    (user_embedding item_embeddings : tensor R)
    (position : tensor Z) (labels : tensor R) : result fnum :=
  let! loss := softmax_loss user_embedding item_embeddings in
  let! (net_user_value, position_bias_loss) :=
    debiased_net_user_value self position labels in
  let! loss := weighted_mean_loss loss net_user_value in
  let! enable_position_debiasing :=
    bind (getattr TwoTowerBaseRetrieval self "enable_position_debiasing")
         as_bool in
  if enable_position_debiasing then Ok (fadd loss position_bias_loss)
  else Ok loss.

Definition train_forward (self : gmap string attr)
    (user_id : tensor Z) (user_features : tensor R) (user_history : tensor Z)
    (item_id : tensor Z) (item_features : tensor R)
    (position : tensor Z) (labels : tensor R) : result fnum :=
  let! user_embedding :=
    compute_user_embedding self user_id user_features user_history in
  let! item_embeddings := compute_item_embeddings self item_id item_features in
  train_forward_loss self user_embedding item_embeddings position labels.

(** ** Notions used by the statements *)

(** Every identifier of an index tensor is a row of a table of [n] rows. *)
Definition ids_in_range (n : nat) (t : tensor Z) : Prop :=
  forall ix, In ix (indices (shape t)) -> (0 <= entry t ix < Z.of_nat n)%Z.

(** What [positional_encoding] writes at column [c] of row [pos]. *)
Definition pe_value (pos c d : nat) : R :=
  if Nat.even c then sin (angle pos c d) else cos (angle pos c d).

(** The columns the loop over [i] writes when [i] runs through [cols]. *)
Definition covered (cols : list nat) (c : nat) : bool :=
  existsb (fun i => (c =? i)%nat || (c =? i + 1)%nat) cols.

(** The table in the words of the specification: entry (pos, 2i) is
    sin(pos / 10000^(2i/D)) and entry (pos, 2i+1) is
    cos(pos / 10000^(2(i+1)/D)). *)
Definition positional_table_spec (pos c d : nat) : R :=
  let i := (c / 2)%nat in
  if Nat.even c then sin (INR pos / Rpower 10000 (INR (2 * i) / INR d))
  else cos (INR pos / Rpower 10000 (INR (2 * (i + 1)) / INR d)).

(** The sequence [forward] gives to the attention: the history plus the
    positional table, in the (H, B, DI) layout. *)
Definition enriched (pe user_history : tensor R) (B H DI : nat) : tensor R :=
  Tensor [H; B; DI] (fun ix =>
    match ix with
    | h :: b :: ix' =>
        entry user_history (project [B; H; DI] (b :: h :: ix'))
        + entry (unsqueeze0 pe) (project [1%nat; H; DI] (b :: h :: ix'))
    | _ => entry user_history (project [B; H; DI] ix)
           + entry (unsqueeze0 pe) (project [1%nat; H; DI] ix)
    end).

(** The normalisation in the words of the specification: clamp, then
    divide by the largest clamped value. *)
Definition normalize_post_clamp (net_user_value : tensor R)
    : result (tensor fnum) :=
  let clamped := clamp_min0 net_user_value in
  let! m := tensor_max clamped in
  Ok (div_scalar clamped m).

(** The score of user [i] against item [j]. *)
Definition score (user_embedding item_embeddings : tensor R) (d i j : nat) : R :=
  rsum d (fun k => entry user_embedding [i; k] * entry item_embeddings [j; k]).

(** ** Example inputs *)

Definition zero_parameters : parameters := {|
  user_id_embedding_weight := fun _ _ => 0;
  item_id_embedding_weight := fun _ _ => 0;
  user_features_weight := fun _ _ => 0;
  user_features_bias := fun _ => 0;
  user_tower_weight := fun _ _ => 0;
  user_tower_bias := fun _ => 0;
  item_features_weight := fun _ _ => 0;
  item_features_bias := fun _ => 0;
  item_tower_weight := fun _ _ => 0;
  item_tower_bias := fun _ => 0;
  position_bias_weight := fun _ _ => 0
|}.

Definition vector {A} (d : A) (l : list A) : tensor A :=
  Tensor [length l] (fun ix => nth (nth 0 ix 0%nat) l d).

Definition matrix {A} (d : A) (rows cols : nat) (l : list (list A))
    : tensor A :=
  Tensor [rows; cols]
         (fun ix => nth (nth 1 ix 0%nat) (nth (nth 0 ix 0%nat) l []) d).

Definition no_knn : attr := AKnn (fun _ _ => Raise (RuntimeError Unsupported)).

(** A model with item table of 3 rows, DU = DI = 2, three user and item
    features and two reward labels. *)
Definition demo_model : gmap string attr :=
  TwoTowerBaseRetrieval_init zero_parameters 5 4 2 3 3 2 3 [1; 0] no_knn false.

(** An encoder instance with a given positional table, and an attention
    that returns its values unchanged. *)
Definition demo_encoder (pe : tensor R) : gmap string attr :=
  <["multihead_attn" :=
      AAttention (fun q k v => Ok (v, zeros [1; 1; 1]%nat))]>
    (<["positional_embeddings" := ATensor pe]> ∅).

(** Parameters that are not all zero; the position-bias table is. *)
Definition demo_parameters : parameters := {|
  user_id_embedding_weight := fun r c => INR r + INR c;
  item_id_embedding_weight := fun r c => INR r - INR c;
  user_features_weight := fun _ _ => 1;
  user_features_bias := fun _ => 0;
  user_tower_weight := fun r c => INR r + INR c;
  user_tower_bias := fun _ => 1;
  item_features_weight := fun r _ => INR r;
  item_features_bias := fun _ => 1;
  item_tower_weight := fun _ _ => 0;
  item_tower_bias := fun _ => 0;
  position_bias_weight := fun _ _ => 0
|}.

(** An instance on which both towers return: after construction the
    mean of the history over its positions is set as
    [user_history_encoder] and a linear layer of input width 2 DI as
    [item_tower_arch]. *)
Definition fitted_model (enable_position_debiasing : bool)
    : gmap string attr :=
  <["item_tower_arch" :=
      ALinear {| in_features := 4; out_features := 2;
                 lweight := fun r c => INR r + INR c;
                 lbias := fun _ => 0 |}]>
    (<["user_history_encoder" := AModule (mean_dim 1)]>
       (TwoTowerBaseRetrieval_init demo_parameters 5 4 2 3 3 2 3 [1; 0]
          no_knn enable_position_debiasing)).

(** ** TwoTowerPlusLightRanker (two_tower_plus_light_ranker.py) *)

(** Arguments of the constructors of the two model classes. *)
Inductive init_value :=
  | IInstance (self : gmap string attr)
  | IInt (z : Z)
  | IFloats (l : list R)
  | IModule (m : attr)
  | IBool (b : bool).

(** Binding of the arguments of a call to a function some of whose
    parameters have defaults: positional arguments, then keywords, then
    the defaults for what is still unbound; a parameter left without a
    value is a TypeError. *)
Section Binding.
Context {V : Type}.

Fixpoint fill_positional (params : list string) (args : list V)
    : gmap string V :=
  match params, args with
  | p :: params', a :: args' => <[p := a]> (fill_positional params' args')
  | _, _ => ∅
  end.

Fixpoint fill_keywords (params : list string) (kwargs : list (string * V))
    (env : gmap string V) : result (gmap string V) :=
  match kwargs with
  | [] => Ok env
  | (k, v) :: kwargs' =>
      if bool_decide (k ∈ params) then
        match env !! k with
        | Some _ => Raise (TypeError (MultipleValues k))
        | None => fill_keywords params kwargs' (<[k := v]> env)
        end
      else Raise (TypeError (UnexpectedKeyword k))
  end.

Definition bind_call (params : list string) (defaults : list (string * V))
    (args : list V) (kwargs : list (string * V)) : result (gmap string V) :=
  let! env := fill_keywords params kwargs (fill_positional params args) in
  if (length params <? length args)%nat then Raise (TypeError TooManyPositional)
  else
    let env := env ∪ list_to_map defaults in
    match filter (fun p => env !! p = None) params with
    | p :: _ => Raise (TypeError (MissingArgument p))
    | [] => Ok env
    end.
End Binding.

(** The parameters of [TwoTowerBaseRetrieval.__init__] and its one
    default, [enable_position_debiasing = False]. *)
Definition TwoTowerBaseRetrieval_init_params : list string :=
  ["self"; "num_items"; "user_id_hash_size"; "user_id_embedding_dim";
   "user_features_size"; "item_id_hash_size"; "item_id_embedding_dim";
   "item_features_size"; "user_value_weights"; "knn_module";
   "enable_position_debiasing"].

Definition TwoTowerBaseRetrieval_init_defaults : list (string * init_value) :=
  [("enable_position_debiasing", IBool false)].

(** Reading a bound parameter at the type its annotation gives; a size
    is handed to [nn.Embedding] or [nn.Linear], which want it
    non-negative. *)
Definition param_int (env : gmap string init_value) (p : string) : result Z :=
  match env !! p with
  | Some (IInt z) => Ok z
  | _ => Raise (TypeError BadOperand)
  end.

Definition param_size (env : gmap string init_value) (p : string)
    : result nat :=
  let! z := param_int env p in
  if (z <? 0)%Z then Raise (RuntimeError SizeMismatch) else Ok (Z.to_nat z).

Definition param_floats (env : gmap string init_value) (p : string)
    : result (list R) :=
  match env !! p with
  | Some (IFloats l) => Ok l
  | _ => Raise (TypeError BadOperand)
  end.

Definition param_module (env : gmap string init_value) (p : string)
    : result attr :=
  match env !! p with
  | Some (IModule m) => Ok m
  | _ => Raise (TypeError BadOperand)
  end.

Definition param_bool (env : gmap string init_value) (p : string)
    : result bool :=
  match env !! p with
  | Some (IBool b) => Ok b
  | _ => Raise (TypeError BadOperand)
  end.

(** A call of [TwoTowerBaseRetrieval.__init__]: the arguments are bound,
    then the body runs on the bound parameters. *)
Definition TwoTowerBaseRetrieval_init_call (theta : parameters)
    (args : list init_value) (kwargs : list (string * init_value))
    : result (gmap string attr) :=
  let! env := bind_call TwoTowerBaseRetrieval_init_params
                TwoTowerBaseRetrieval_init_defaults args kwargs in
  let! num_items := param_int env "num_items" in
  let! user_value_weights := param_floats env "user_value_weights" in
  let! knn_module := param_module env "knn_module" in
  let! enable_position_debiasing :=
    param_bool env "enable_position_debiasing" in
  let! user_id_hash_size := param_size env "user_id_hash_size" in
  let! user_id_embedding_dim := param_size env "user_id_embedding_dim" in
  let! item_id_hash_size := param_size env "item_id_hash_size" in
  let! item_id_embedding_dim := param_size env "item_id_embedding_dim" in
  let! user_features_size := param_size env "user_features_size" in
  let! item_features_size := param_size env "item_features_size" in
  Ok (TwoTowerBaseRetrieval_init theta num_items user_id_hash_size
        user_id_embedding_dim user_features_size item_id_hash_size
        item_id_embedding_dim item_features_size user_value_weights
        knn_module enable_position_debiasing).

(** [TwoTowerPlusLightRanker.__init__]: [super().__init__] is given seven
    positional arguments after the instance. *)
Definition TwoTowerPlusLightRanker_init (theta : parameters)
    (user_id_hash_size user_id_embedding_dim user_features_size : Z)
    (item_id_hash_size item_id_embedding_dim item_features_size : Z)
    (user_value_weights : list R) (knn_module : attr)
    : result (gmap string attr) :=
  let self : gmap string attr := ∅ in
  TwoTowerBaseRetrieval_init_call theta
    [IInstance self;
     IInt user_id_hash_size;
     IInt user_id_embedding_dim;
     IInt user_features_size;
     IInt item_id_hash_size;
     IInt item_id_embedding_dim;
     IInt item_features_size;
     IFloats user_value_weights] [].

(** [TwoTowerPlusLightRanker.forward] and [train_forward]: [pass]. *)
Definition TwoTowerPlusLightRanker_forward (self : gmap string attr)
    (user_id : tensor Z) (user_features : tensor R)
    (item_id : tensor Z) (item_features : tensor R) (position : tensor Z)
    : result unit := Ok tt.

Definition TwoTowerPlusLightRanker_train_forward (self : gmap string attr)
    (user_id : tensor Z) (user_features : tensor R)
    (item_id : tensor Z) (item_features : tensor R) (position : tensor Z)
    (labels : tensor R) : result unit := Ok tt.

(** ** Further notions used by the statements *)

(** [c * t], element by element. *)
Definition scale (c : R) (t : tensor R) : tensor R := tmap (Rmult c) t.

(** * Properties *)

#[local] Arguments cat : simpl never.
#[local] Arguments stack : simpl never.
#[local] Arguments linear : simpl never.
#[local] Arguments embedding : simpl never.
#[local] Arguments matmul : simpl never.
#[local] Arguments cross_entropy : simpl never.
#[local] Arguments mse_loss : simpl never.
#[local] Arguments map2_broadcast : simpl never.
#[local] Arguments squeeze : simpl never.
#[local] Arguments select : simpl never.
#[local] Arguments mean_dim : simpl never.
#[local] Arguments permute102 : simpl never.
#[local] Arguments transpose : simpl never.
#[local] Arguments flip0 : simpl never.
#[local] Arguments tensor_max : simpl never.
#[local] Arguments getattr : simpl never.
#[local] Arguments TwoTowerBaseRetrieval_init : simpl never.

(** ** Results *)

Lemma raises_Raise {A} (e : exn) : raises (@Raise A e).
Proof. by exists e. Qed.

Lemma raises_bind {A B} (r : result A) (k : A -> result B) :
  (forall a, raises (k a)) -> raises (bind r k).
Proof. intros Hk. destruct r as [a|e]; simpl; [apply Hk | by exists e]. Qed.

Lemma raises_bind_l {A B} (r : result A) (k : A -> result B) :
  raises r -> raises (bind r k).
Proof. intros [e ->]. by exists e. Qed.

Lemma raises_not_returns {A} (r : result A) : raises r -> ~ returns r.
Proof. intros [e ->] [a Ha]. discriminate. Qed.

(** ** Index tensors and embeddings *)

Lemma in_range_spec n z : in_range n z = true <-> (0 <= z < Z.of_nat n)%Z.
Proof. unfold in_range. rewrite andb_true_iff, Z.leb_le, Z.ltb_lt. tauto. Qed.

Lemma forallb_in_range n t :
  forallb (in_range n) (flat t) = true <-> ids_in_range n t.
Proof.
  unfold flat, ids_in_range. rewrite forallb_forall. split.
  - intros H ix Hix. apply in_range_spec, H, in_map, Hix.
  - intros H z Hz. apply in_map_iff in Hz as (ix & <- & Hix).
    apply in_range_spec, H, Hix.
Qed.

Lemma embedding_in_range e idx :
  ids_in_range (num_embeddings e) idx ->
  embedding e idx =
    Ok (Tensor (shape idx ++ [embedding_dim e])
               (fun ix => weight e (Z.to_nat (entry idx (removelast ix)))
                                   (List.last ix 0%nat))).
Proof.
  intros H. unfold embedding.
  by rewrite (proj2 (forallb_in_range _ _) H).
Qed.

Lemma embedding_out_of_range e idx :
  ~ ids_in_range (num_embeddings e) idx -> embedding e idx = Raise IndexError.
Proof.
  intros H. unfold embedding.
  destruct (forallb _ _) eqn:E; [|done].
  by apply forallb_in_range in E.
Qed.

(** ** Attribute lookup *)

Lemma getattr_lookup methods (self : gmap string attr) name a :
  self !! name = Some a -> getattr methods self name = Ok a.
Proof. intros E. unfold getattr. by rewrite E. Qed.

Lemma getattr_insert_eq methods (self : gmap string attr) name a :
  getattr methods (<[name := a]> self) name = Ok a.
Proof. unfold getattr. by rewrite lookup_insert_eq. Qed.

Lemma getattr_insert_ne methods (self : gmap string attr) name name' a :
  name <> name' ->
  getattr methods (<[name := a]> self) name' = getattr methods self name'.
Proof. intros H. unfold getattr. by rewrite lookup_insert_ne. Qed.

(** ** Concatenation along axis 1 *)

Lemma legacy_empty_matrix {A} (t : tensor A) n m :
  shape t = [n; m] -> legacy_empty t = false.
Proof.
  intros E. unfold legacy_empty, shape_eqb. rewrite E. by case_bool_decide.
Qed.

Lemma cat_pair_matrices (a b : tensor R) :
  forall n p n' q, shape a = [n; p] -> shape b = [n'; q] ->
  cat [a; b] 1 =
    if (n =? n')%nat then Ok (Tensor [n; (p + q)%nat] (cat_entry [a; b] 1 a))
    else Raise (RuntimeError SizeMismatch).
Proof.
  intros n p n' q Ea Eb. unfold cat. simpl.
  rewrite (legacy_empty_matrix a n p Ea), (legacy_empty_matrix b n' q Eb). simpl.
  unfold rank, same_off_axis, shape_eqb. rewrite Ea, Eb. simpl.
  rewrite (bool_decide_eq_true_2 ([n; 0%nat] = [n; 0%nat])) by done. simpl.
  destruct (Nat.eqb_spec n n') as [->|Hn].
  - rewrite bool_decide_eq_true_2 by done. simpl. by rewrite Nat.add_0_r.
  - rewrite bool_decide_eq_false_2; [done|]. intros E. by injection E as ->.
Qed.

Lemma cat_matrices_with_rank3 (a b c : tensor R) n p n' q x y z :
  shape a = [n; p] -> shape b = [n'; q] -> shape c = [x; y; z] ->
  cat [a; b; c] 1 = Raise (RuntimeError RankMismatch).
Proof.
  intros Ea Eb Ec. unfold cat. simpl.
  rewrite (legacy_empty_matrix a n p Ea), (legacy_empty_matrix b n' q Eb).
  assert (legacy_empty c = false) as ->.
  { unfold legacy_empty, shape_eqb. rewrite Ec. by case_bool_decide. }
  simpl. unfold rank. by rewrite Ea, Eb, Ec.
Qed.

(** ** The model as constructed *)

Section Model.
Variables (theta : parameters) (num_items : Z).
Variables (user_id_hash_size DU IU item_id_hash_size DI II : nat).
Variables (user_value_weights : list R) (knn_module : attr).
Variable (debias : bool).

Let self :=
  TwoTowerBaseRetrieval_init theta num_items user_id_hash_size DU IU
    item_id_hash_size DI II user_value_weights knn_module debias.

(** A lookup in the dictionary [__init__] builds computes, once the
    debiasing flag is known. *)
Ltac lookup_init := subst self; destruct debias; reflexivity.

Lemma init_user_history_encoder :
  getattr TwoTowerBaseRetrieval self "user_history_encoder"
  = Raise (AttributeError "user_history_encoder").
Proof. lookup_init. Qed.

Lemma init_item_id_embedding_arch :
  getattr TwoTowerBaseRetrieval self "item_id_embedding_arch"
  = Ok (AEmbedding {| num_embeddings := item_id_hash_size;
                      embedding_dim := DI;
                      weight := item_id_embedding_weight theta |}).
Proof. lookup_init. Qed.

Lemma init_item_features_arch :
  getattr TwoTowerBaseRetrieval self "item_features_arch"
  = Ok (ALinear {| in_features := II; out_features := DI;
                   lweight := item_features_weight theta;
                   lbias := item_features_bias theta |}).
Proof. lookup_init. Qed.

Lemma init_item_tower_arch :
  getattr TwoTowerBaseRetrieval self "item_tower_arch"
  = Ok (ALinear {| in_features := DI; out_features := DI;
                   lweight := item_tower_weight theta;
                   lbias := item_tower_bias theta |}).
Proof. lookup_init. Qed.

Lemma init_user_value_weights :
  getattr TwoTowerBaseRetrieval self "user_value_weights"
  = Ok (ATensor (tensor_of_list user_value_weights)).
Proof. lookup_init. Qed.

Lemma init_enable_position_debiasing :
  getattr TwoTowerBaseRetrieval self "enable_position_debiasing"
  = Ok (ABool debias).
Proof. lookup_init. Qed.

(** The user tower stops at the lookup of the encoder, unless the
    embedding of the history has already failed. *)
Lemma compute_user_embedding_init user_id user_features user_history :
  compute_user_embedding self user_id user_features user_history
  = let! _ := embedding {| num_embeddings := item_id_hash_size;
                           embedding_dim := DI;
                           weight := item_id_embedding_weight theta |}
                        user_history in
    Raise (AttributeError "user_history_encoder").
Proof.
  unfold compute_user_embedding.
  rewrite init_item_id_embedding_arch. simpl.
  destruct (embedding _ user_history); simpl; [|done].
  by rewrite init_user_history_encoder.
Qed.

Lemma compute_user_embedding_raises user_id user_features user_history :
  raises (compute_user_embedding self user_id user_features user_history).
Proof.
  rewrite compute_user_embedding_init.
  apply raises_bind. intros _. apply raises_Raise.
Qed.

Lemma compute_user_embedding_attribute_error
    user_id user_features user_history :
  ids_in_range item_id_hash_size user_history ->
  compute_user_embedding self user_id user_features user_history
  = Raise (AttributeError "user_history_encoder").
Proof.
  intros H. rewrite compute_user_embedding_init.
  by rewrite embedding_in_range.
Qed.

Lemma init_user_id_embedding_arch :
  getattr TwoTowerBaseRetrieval self "user_id_embedding_arch"
  = Ok (AEmbedding {| num_embeddings := user_id_hash_size;
                      embedding_dim := DU;
                      weight := user_id_embedding_weight theta |}).
Proof. lookup_init. Qed.

Lemma init_user_features_arch :
  getattr TwoTowerBaseRetrieval self "user_features_arch"
  = Ok (ALinear {| in_features := IU; out_features := DU;
                   lweight := user_features_weight theta;
                   lbias := user_features_bias theta |}).
Proof. lookup_init. Qed.

(** Were an encoder attached to the instance after construction, its
    three-axis summary could still not be concatenated with the two
    matrices. *)
Lemma compute_user_embedding_with_encoder
    (f : tensor R -> result (tensor R))
    user_id user_features user_history B H B' B'' :
  shape user_history = [B; H] ->
  ids_in_range item_id_hash_size user_history ->
  (forall x, shape x = [B; H; DI] ->
             exists y, f x = Ok y /\ shape y = [B; 2%nat; DI]) ->
  shape user_id = [B'] ->
  ids_in_range user_id_hash_size user_id ->
  shape user_features = [B''; IU] ->
  compute_user_embedding (<["user_history_encoder" := AModule f]> self)
                         user_id user_features user_history
  = Raise (RuntimeError RankMismatch).
Proof.
  intros Hh Hhr Hf Hu Hur Hx. unfold compute_user_embedding.
  rewrite getattr_insert_ne, init_item_id_embedding_arch by done. simpl.
  rewrite embedding_in_range by done. simpl.
  rewrite getattr_insert_eq. simpl.
  destruct (Hf (Tensor (shape user_history ++ [DI])
                 (fun ix => item_id_embedding_weight theta
                    (Z.to_nat (entry user_history (removelast ix)))
                    (List.last ix 0%nat)))) as (y & -> & Hy).
  { simpl. by rewrite Hh. }
  simpl.
  rewrite getattr_insert_ne, init_user_id_embedding_arch by done. simpl.
  rewrite embedding_in_range by done. simpl.
  rewrite getattr_insert_ne, init_user_features_arch by done. simpl.
  unfold linear at 1. rewrite Hx. simpl. rewrite Nat.eqb_refl. simpl.
  by rewrite (cat_matrices_with_rank3 _ _ y B' DU B'' DU B 2%nat DI)
    by (simpl; by rewrite ?Hu).
Qed.

(** With a final layer of input width 2 DI in place of [item_tower_arch]
    the item tower returns a (B, DI) embedding. *)
Lemma compute_item_embeddings_with_wide_layer W b item_id item_features B :
  shape item_id = [B] ->
  ids_in_range item_id_hash_size item_id ->
  shape item_features = [B; II] ->
  exists y,
    compute_item_embeddings
      (<["item_tower_arch" :=
           ALinear {| in_features := DI + DI; out_features := DI;
                      lweight := W; lbias := b |}]> self)
      item_id item_features = Ok y
    /\ shape y = [B; DI].
Proof.
  intros Hid Hrange Hfeat. unfold compute_item_embeddings.
  rewrite getattr_insert_ne, init_item_id_embedding_arch by done. simpl.
  rewrite embedding_in_range by done. simpl.
  rewrite getattr_insert_ne, init_item_features_arch by done. simpl.
  unfold linear at 1. rewrite Hfeat. simpl. rewrite Nat.eqb_refl. simpl.
  rewrite (cat_pair_matrices _ _ B DI B DI) by (simpl; by rewrite ?Hid).
  rewrite Nat.eqb_refl. simpl.
  rewrite getattr_insert_eq. simpl.
  unfold linear. simpl. rewrite Nat.eqb_refl.
  eexists. split; reflexivity.
Qed.

Lemma forward_raises user_id user_features user_history :
  raises (forward self user_id user_features user_history).
Proof. apply raises_bind_l, compute_user_embedding_raises. Qed.

Lemma train_forward_raises user_id user_features user_history
    item_id item_features position labels :
  raises (train_forward self user_id user_features user_history
                        item_id item_features position labels).
Proof. apply raises_bind_l, compute_user_embedding_raises. Qed.
End Model.

(** ** The positional table *)

Lemma setitem_in_range t ix v :
  Forall2 lt ix (shape t) ->
  setitem t ix v =
    Ok (Tensor (shape t)
               (fun ix' => if bool_decide (ix' = ix) then v else entry t ix')).
Proof. intros H. unfold setitem. by rewrite bool_decide_eq_true_2. Qed.

Section PositionalEncoding.
Variables seq_len d_model : nat.

Lemma row_body_spec pos PE i :
  shape PE = [seq_len; d_model] ->
  (pos < seq_len)%nat -> (i < d_model)%nat -> Nat.even i = true ->
  exists PE', positional_encoding_body d_model pos PE i = Ok PE'
    /\ shape PE' = [seq_len; d_model]
    /\ forall p c, entry PE' [p; c] =
         if ((p =? pos)%nat && (c <? d_model)%nat && covered [i] c)%bool
         then pe_value pos c d_model else entry PE [p; c].
Proof.
  intros Hs Hpos Hi He. unfold positional_encoding_body.
  rewrite setitem_in_range by (rewrite Hs; repeat constructor; lia).
  simpl. destruct (Nat.ltb_spec (i + 1) d_model) as [Hlt|Hge].
  - rewrite setitem_in_range by (simpl; rewrite Hs; repeat constructor; lia).
    eexists. split; [reflexivity|]. split; [done|].
    intros p c. simpl. unfold covered. simpl. rewrite orb_false_r.
    repeat case_bool_decide; simplify_eq.
    + rewrite Nat.eqb_refl. simpl.
      destruct (Nat.ltb_spec (i + 1) d_model); [|lia]. simpl.
      rewrite Nat.eqb_refl, orb_true_r. unfold pe_value.
      replace (i + 1)%nat with (S i) by lia.
      by rewrite Nat.even_succ, <- Nat.negb_even, He.
    + rewrite Nat.eqb_refl. simpl.
      destruct (Nat.ltb_spec i d_model); [|lia]. simpl.
      rewrite Nat.eqb_refl. simpl. unfold pe_value. by rewrite He.
    + destruct (Nat.eqb_spec p pos) as [->|]; simpl; [|done].
      destruct (c <? d_model)%nat; simpl; [|done].
      destruct (Nat.eqb_spec c i) as [->|]; [done|].
      destruct (Nat.eqb_spec c (i + 1)) as [->|]; [done|]. done.
  - eexists. split; [reflexivity|]. split; [done|].
    intros p c. simpl. unfold covered. simpl. rewrite orb_false_r.
    case_bool_decide; simplify_eq.
    + rewrite Nat.eqb_refl. simpl.
      destruct (Nat.ltb_spec i d_model); [|lia]. simpl.
      rewrite Nat.eqb_refl. simpl. unfold pe_value. by rewrite He.
    + destruct (Nat.eqb_spec p pos) as [->|]; simpl; [|done].
      destruct (Nat.ltb_spec c d_model); simpl; [|done].
      destruct (Nat.eqb_spec c i) as [->|]; [done|].
      destruct (Nat.eqb_spec c (i + 1)) as [->|]; [lia|]. done.
Qed.

Lemma row_loop_spec pos cols :
  (pos < seq_len)%nat ->
  Forall (fun i => (i < d_model)%nat /\ Nat.even i = true) cols ->
  forall PE, shape PE = [seq_len; d_model] ->
  exists PE', for_each cols (positional_encoding_body d_model pos) PE = Ok PE'
    /\ shape PE' = [seq_len; d_model]
    /\ forall p c, entry PE' [p; c] =
         if ((p =? pos)%nat && (c <? d_model)%nat && covered cols c)%bool
         then pe_value pos c d_model else entry PE [p; c].
Proof.
  intros Hpos. induction 1 as [|i cols [Hi He] _ IH]; intros PE Hs.
  - exists PE. split; [done|]. split; [done|]. intros p c. simpl.
    by rewrite andb_false_r.
  - destruct (row_body_spec pos PE i Hs Hpos Hi He) as (PE1 & E1 & Hs1 & H1).
    destruct (IH PE1 Hs1) as (PE2 & E2 & Hs2 & H2).
    exists PE2. split; [simpl; by rewrite E1|]. split; [done|].
    intros p c. rewrite H2, H1. unfold covered. simpl. rewrite orb_false_r.
    destruct (p =? pos)%nat, (c <? d_model)%nat; simpl; try done.
    destruct (existsb _ cols); simpl; [by rewrite orb_true_r|].
    by rewrite orb_false_r.
Qed.

Lemma range_step2_spec :
  Forall (fun i => (i < d_model)%nat /\ Nat.even i = true)
         (range_step2 d_model).
Proof.
  unfold range_step2. apply List.Forall_forall. intros i Hi.
  apply in_map_iff in Hi as (k & <- & Hk). apply in_seq in Hk. split.
  - assert ((d_model + 1) / 2 * 2 <= d_model + 1)%nat
      by (rewrite Nat.mul_comm; apply Nat.Div0.mul_div_le). lia.
  - rewrite Nat.even_mul. done.
Qed.

Lemma range_step2_covers c :
  (c < d_model)%nat -> covered (range_step2 d_model) c = true.
Proof.
  intros Hc. unfold covered. apply existsb_exists.
  exists (2 * (c / 2))%nat. split.
  - unfold range_step2. apply in_map, in_seq.
    pose proof (Nat.div_mod_eq (d_model + 1) 2).
    pose proof (Nat.mod_upper_bound (d_model + 1) 2).
    pose proof (Nat.div_mod_eq c 2).
    pose proof (Nat.mod_upper_bound c 2). lia.
  - pose proof (Nat.div_mod_eq c 2).
    pose proof (Nat.mod_upper_bound c 2).
    apply orb_true_iff.
    destruct (Nat.eq_dec (c mod 2) 0%nat);
      [left | right]; apply Nat.eqb_eq; lia.
Qed.

Lemma table_loop_spec rows :
  Forall (fun pos => (pos < seq_len)%nat) rows ->
  forall PE, shape PE = [seq_len; d_model] ->
  exists PE', for_each rows (positional_encoding_row d_model) PE = Ok PE'
    /\ shape PE' = [seq_len; d_model]
    /\ forall p c, entry PE' [p; c] =
         if (existsb (Nat.eqb p) rows && (c <? d_model)%nat)%bool
         then pe_value p c d_model else entry PE [p; c].
Proof.
  induction 1 as [|pos rows Hpos _ IH]; intros PE Hs.
  - exists PE. split; [done|]. split; [done|]. done.
  - destruct (row_loop_spec pos _ Hpos range_step2_spec PE Hs)
      as (PE1 & E1 & Hs1 & H1).
    destruct (IH PE1 Hs1) as (PE2 & E2 & Hs2 & H2).
    exists PE2. split; [simpl; unfold positional_encoding_row at 1; by rewrite E1|].
    split; [done|].
    intros p c. rewrite H2, H1. simpl.
    destruct (existsb (Nat.eqb p) rows); simpl.
    + rewrite orb_true_r. simpl.
      destruct (c <? d_model)%nat; simpl; [done|].
      by rewrite andb_false_r.
    + rewrite orb_false_r.
      destruct (Nat.eqb_spec p pos) as [->|]; simpl; [|done].
      destruct (Nat.ltb_spec c d_model); simpl; [|done].
      by rewrite range_step2_covers.
Qed.

Lemma positional_encoding_spec :
  exists PE, positional_encoding seq_len d_model = Ok PE
    /\ shape PE = [seq_len; d_model]
    /\ forall pos c, (pos < seq_len)%nat -> (c < d_model)%nat ->
         entry PE [pos; c] = pe_value pos c d_model.
Proof.
  destruct (table_loop_spec (seq 0 seq_len)) with (PE := zeros [seq_len; d_model])
    as (PE & E & Hs & H).
  { apply List.Forall_forall. intros pos Hp. apply in_seq in Hp. lia. }
  { done. }
  exists PE. split; [exact E|]. split; [done|].
  intros pos c Hpos Hc. rewrite H.
  assert (existsb (Nat.eqb pos) (seq 0 seq_len) = true) as ->.
  { apply existsb_exists. exists pos. split; [apply in_seq; lia|].
    apply Nat.eqb_refl. }
  destruct (Nat.ltb_spec c d_model); [done|lia].
Qed.
End PositionalEncoding.

Lemma flip0_matrix {A} (t : tensor A) n m :
  shape t = [n; m] ->
  exists F, flip0 t = Ok F /\ shape F = [n; m]
    /\ forall r c, entry F [r; c] = entry t [(n - 1 - r)%nat; c].
Proof.
  intros E. unfold flip0. rewrite E. eexists. split; [reflexivity|].
  split; [done|]. done.
Qed.

Lemma inv_gt_1_bounds x : 1 < x -> 0 < 1 / x < 1.
Proof.
  intros H. assert (0 < / x) by (apply Rinv_0_lt_compat; lra).
  assert (/ x * x = 1) by (apply Rinv_l; lra).
  unfold Rdiv. nra.
Qed.

Lemma sin_table_differs :
  sin (1 / Rpower 10000 (4 / 4)) <> sin (1 / Rpower 10000 (2 / 4)).
Proof.
  assert (Hy : 1 < Rpower 10000 (2 / 4)).
  { rewrite <- (Rpower_O 10000) by lra. apply Rpower_lt; lra. }
  assert (Hx : Rpower 10000 (2 / 4) < Rpower 10000 (4 / 4)).
  { apply Rpower_lt; lra. }
  pose proof (inv_gt_1_bounds _ Hy) as By.
  pose proof (inv_gt_1_bounds (Rpower 10000 (4 / 4)) ltac:(lra)) as Bx.
  pose proof PI2_1.
  intros E. apply sin_inj in E; [|lra|lra].
  assert (Rpower 10000 (4 / 4) = Rpower 10000 (2 / 4)); [|lra].
  apply Rinv_eq_reg. unfold Rdiv in E. lra.
Qed.

Lemma positional_encoding_differs_from_spec :
  match positional_encoding 2 4 with
  | Ok PE => entry PE [1%nat; 2%nat] <> positional_table_spec 1 2 4
  | Raise _ => False
  end.
Proof.
  destruct (positional_encoding_spec 2 4) as (PE & -> & _ & H).
  rewrite H by lia. unfold pe_value, positional_table_spec, angle. simpl.
  replace ((1 + 1 + 1 + 1) / (1 + 1 + 1 + 1)) with (4 / 4) by lra.
  replace ((1 + 1) / (1 + 1 + 1 + 1)) with (2 / 4) by lra.
  apply sin_table_differs.
Qed.

(** ** The history encoder *)

Lemma broadcast_batch (b h d : nat) :
  broadcast_shapes [b; h; d] [1%nat; h; d] = Some [b; h; d].
Proof.
  unfold broadcast_shapes. simpl. rewrite !Nat.eqb_refl.
  destruct (b =? 1)%nat; simpl; by rewrite ?Nat.eqb_refl.
Qed.

Lemma project_in_range (s ix : list nat) :
  Forall2 lt ix s -> project s ix = ix.
Proof.
  intros H. unfold project.
  rewrite (Forall2_length _ _ _ H), Nat.sub_diag, drop_0.
  induction H as [|i n ix s Hin _ IH]; [done|]. simpl. rewrite IH. f_equal.
  destruct (Nat.eqb_spec n 1); [lia|done].
Qed.

Section Forward.
Variables (self : gmap string attr) (pe : tensor R).
Variable (mha : tensor R -> tensor R -> tensor R
                -> result (tensor R * tensor R)).
Variables (B H DI : nat) (user_history : tensor R).
Hypothesis Hpe : self !! "positional_embeddings" = Some (ATensor pe).
Hypothesis Hmha : self !! "multihead_attn" = Some (AAttention mha).
Hypothesis Hpes : shape pe = [H; DI].
Hypothesis Hx : shape user_history = [B; H; DI].
Hypothesis mha_shape : forall x, shape x = [H; B; DI] ->
  exists out w, mha x x x = Ok (out, w) /\ shape out = [H; B; DI].

Let enriched := enriched pe user_history B H DI.

Lemma enriched_entry h b j :
  (h < H)%nat -> (b < B)%nat -> (j < DI)%nat ->
  entry enriched [h; b; j] = entry user_history [b; h; j] + entry pe [h; j].
Proof.
  intros Hh Hb Hj. simpl.
  rewrite project_in_range by (repeat constructor; lia).
  f_equal. unfold project. simpl.
  destruct (Nat.eqb_spec H 1), (Nat.eqb_spec DI 1); repeat f_equal; lia.
Qed.

Lemma forward_unfold :
  exists out w, mha enriched enriched enriched = Ok (out, w)
    /\ shape out = [H; B; DI]
    /\ UserHistoryEncoder_forward self user_history =
       let! attn_output := permute102 out in
       let! first_item := bind (index_all_0_all attn_output) (squeeze 1) in
       let! mean_value := mean_dim 1 attn_output in
       stack [first_item; mean_value] 1.
Proof.
  destruct (mha_shape enriched eq_refl) as (out & w & E & Hs).
  exists out, w. split; [done|]. split; [done|].
  unfold UserHistoryEncoder_forward.
  rewrite (getattr_lookup _ _ _ _ Hpe). simpl.
  unfold map2_broadcast. simpl. rewrite Hx, Hpes, broadcast_batch. simpl.
  rewrite (getattr_lookup _ _ _ _ Hmha). simpl.
  change (mha _ _ _) with (mha enriched enriched enriched).
  rewrite E. simpl.
  destruct (permute102 out) as [attn|]; simpl; [|done].
  destruct (let! x := index_all_0_all attn in squeeze 1 x); simpl; [|done].
  destruct (mean_dim 1 attn); simpl; [|done].
  by destruct (stack _ _).
Qed.

Lemma forward_width_1 :
  DI = 1%nat -> (1 <= H)%nat ->
  UserHistoryEncoder_forward self user_history
  = Raise (RuntimeError SizeMismatch).
Proof.
  intros HDI HH.
  destruct forward_unfold as (out & w & _ & Hs & ->).
  unfold permute102. rewrite Hs. simpl.
  unfold index_all_0_all, select. simpl.
  destruct (Nat.ltb_spec 0 H); [|lia]. simpl.
  unfold squeeze. simpl. subst DI. simpl.
  unfold mean_dim. simpl.
  unfold stack. simpl. unfold shape_eqb.
  rewrite bool_decide_eq_true_2 by done. simpl.
  by rewrite bool_decide_eq_false_2 by done.
Qed.

Lemma forward_summary :
  DI <> 1%nat -> (1 <= H)%nat ->
  exists out w y,
    mha enriched enriched enriched = Ok (out, w)
    /\ shape out = [H; B; DI]
    /\ UserHistoryEncoder_forward self user_history = Ok y
    /\ shape y = [B; 2%nat; DI]
    /\ forall b j,
         entry y [b; 0%nat; j] = entry out [0%nat; b; j]
         /\ entry y [b; 1%nat; j]
            = rsum H (fun h => entry out [h; b; j]) / INR H.
Proof.
  intros HDI HH.
  destruct forward_unfold as (out & w & E & Hs & ->).
  exists out, w. eexists. split; [done|]. split; [done|].
  unfold permute102. rewrite Hs. simpl.
  unfold index_all_0_all, select. simpl.
  destruct (Nat.ltb_spec 0 H); [|lia]. simpl.
  unfold squeeze. simpl.
  destruct (Nat.eqb_spec DI 1); [done|]. simpl.
  unfold mean_dim. simpl.
  unfold stack. simpl. unfold shape_eqb.
  rewrite !bool_decide_eq_true_2 by done. simpl.
  split; [reflexivity|]. split; [done|]. intros b j. split; reflexivity.
Qed.
End Forward.

(** ** Vectors *)

Lemma indices_vector n : indices [n] = map (fun i => [i]) (seq 0 n).
Proof.
  simpl. induction (seq 0 n) as [|i l IH]; [done|]. simpl. by rewrite IH.
Qed.

Lemma flat_vector {A} (t : tensor A) n :
  shape t = [n] -> flat t = map (fun i => entry t [i]) (seq 0 n).
Proof. intros E. unfold flat. by rewrite E, indices_vector, map_map. Qed.

Lemma broadcast_same_vector n : broadcast_shapes [n] [n] = Some [n].
Proof. unfold broadcast_shapes. simpl. by rewrite Nat.eqb_refl. Qed.

Lemma project_vector n i : (i < n)%nat -> project [n] [i] = [i].
Proof.
  intros H. unfold project. simpl. destruct (Nat.eqb_spec n 1); [|done].
  f_equal. lia.
Qed.

Lemma map2_broadcast_vector {A B C} (f : A -> B -> C) a b n :
  shape a = [n] -> shape b = [n] ->
  exists c, map2_broadcast f a b = Ok c
    /\ shape c = [n]
    /\ forall i, (i < n)%nat -> entry c [i] = f (entry a [i]) (entry b [i]).
Proof.
  intros Ea Eb. unfold map2_broadcast. rewrite Ea, Eb, broadcast_same_vector.
  eexists. split; [reflexivity|]. split; [done|].
  intros i Hi. simpl. by rewrite project_vector.
Qed.

Lemma map_seq_ext {A} (f g : nat -> A) n :
  (forall i, (i < n)%nat -> f i = g i) -> map f (seq 0 n) = map g (seq 0 n).
Proof. intros H. apply map_ext_in. intros i Hi. apply in_seq in Hi. apply H. lia. Qed.

(** ** Sums and means *)

Lemma fsum_Finite (l : list R) :
  fsum (map Finite l) = Finite (fold_right Rplus 0 l).
Proof.
  unfold fsum. induction l as [|x l IH]; [done|].
  cbn [map fold_right]. by rewrite IH.
Qed.

Lemma fmean_Finite (l : list R) :
  l <> [] -> fmean (map Finite l) = Finite (fold_right Rplus 0 l / INR (length l)).
Proof.
  intros H. destruct l as [|x l]; [done|].
  unfold fmean. cbn [map]. rewrite <- (map_cons Finite), fsum_Finite.
  by rewrite length_map.
Qed.

Lemma fmean_NonFinite (l : list fnum) :
  l <> [] -> Forall (fun x => x = NonFinite) l -> fmean l = NonFinite.
Proof.
  intros Hne H. destruct l as [|x l]; [done|].
  inversion H; subst. unfold fmean. simpl. done.
Qed.

Lemma sum_nonneg (l : list R) :
  Forall (fun x => 0 <= x) l -> 0 <= fold_right Rplus 0 l.
Proof. induction 1; simpl; lra. Qed.

Lemma sum_ge_term (l : list R) x :
  Forall (fun y => 0 <= y) l -> In x l -> x <= fold_right Rplus 0 l.
Proof.
  induction 1 as [|y l Hy Hl IH]; intros Hin; [done|]. simpl.
  pose proof (sum_nonneg l Hl).
  destruct Hin as [->|Hin]; [lra|]. specialize (IH Hin). lra.
Qed.

Lemma rsum_ge_term n (f : nat -> R) i :
  (forall k, 0 <= f k) -> (i < n)%nat -> f i <= rsum n f.
Proof.
  intros Hf Hi. unfold rsum. apply sum_ge_term.
  - apply List.Forall_forall. intros y Hy.
    apply in_map_iff in Hy as (k & <- & _). apply Hf.
  - apply in_map, in_seq. lia.
Qed.

(** ** The largest element *)

Lemma fold_left_Rmax_ge xs x : x <= fold_left Rmax xs x.
Proof.
  revert x. induction xs as [|y xs IH]; intros x; simpl; [lra|].
  pose proof (IH (Rmax x y)). pose proof (Rmax_l x y). lra.
Qed.

Lemma fold_left_Rmax_upper xs x y :
  In y xs -> y <= fold_left Rmax xs x.
Proof.
  revert x. induction xs as [|z xs IH]; intros x Hin; [done|]. simpl.
  destruct Hin as [->|Hin]; [|by apply IH].
  pose proof (fold_left_Rmax_ge xs (Rmax x y)). pose proof (Rmax_r x y). lra.
Qed.

Lemma fold_left_Rmax_in xs x :
  fold_left Rmax xs x = x \/ In (fold_left Rmax xs x) xs.
Proof.
  revert x. induction xs as [|y xs IH]; intros x; simpl; [by left|].
  destruct (IH (Rmax x y)) as [E|Hin]; [|by right; right].
  rewrite E. unfold Rmax. destruct (Rle_dec x y); [right; by left|by left].
Qed.

Lemma tensor_max_spec t m :
  tensor_max t = Ok m ->
  In m (flat t) /\ forall y, In y (flat t) -> y <= m.
Proof.
  unfold tensor_max. destruct (flat t) as [|x xs]; [done|].
  intros [= <-]. split.
  - destruct (fold_left_Rmax_in xs x) as [->|H]; [by left|by right].
  - intros y [<-|Hy]; [apply fold_left_Rmax_ge|by apply fold_left_Rmax_upper].
Qed.

Lemma tensor_max_intro t m :
  In m (flat t) -> (forall y, In y (flat t) -> y <= m) -> tensor_max t = Ok m.
Proof.
  intros Hin Hub. unfold tensor_max.
  destruct (flat t) as [|x xs] eqn:E; [done|].
  assert (tensor_max t = Ok (fold_left Rmax xs x)) as Hm
    by (unfold tensor_max; by rewrite E).
  apply tensor_max_spec in Hm as [Hin' Hub']. rewrite E in Hin', Hub'.
  f_equal. apply Rle_antisym; [by apply Hub | by apply Hub'].
Qed.

Lemma tensor_max_flat t t' : flat t = flat t' -> tensor_max t = tensor_max t'.
Proof. intros E. unfold tensor_max. by rewrite E. Qed.

(** ** Normalisation of the net user value *)

Lemma normalize_unfold t m :
  tensor_max t = Ok m ->
  normalize_net_user_value t = Ok (div_scalar (clamp_min0 t) m).
Proof. intros E. unfold normalize_net_user_value. by rewrite E. Qed.

Lemma fdiv_zero a : fdiv a 0 = NonFinite.
Proof. unfold fdiv. by destruct (Req_dec_T 0 0). Qed.

Lemma fdiv_nonzero a b : b <> 0 -> fdiv a b = Finite (a / b).
Proof. intros H. unfold fdiv. by destruct (Req_dec_T b 0). Qed.

Lemma weighted_mean_loss_vector loss nuv n m :
  shape loss = [n] -> shape nuv = [n] -> tensor_max nuv = Ok m ->
  weighted_mean_loss loss nuv =
    Ok (fmean (map (fun i => fmul (entry loss [i])
                                  (fdiv (Rmax (entry nuv [i]) 0) m))
                   (seq 0 n))).
Proof.
  intros El En Em. unfold weighted_mean_loss.
  rewrite (normalize_unfold _ _ Em). simpl.
  destruct (map2_broadcast_vector fmul loss (div_scalar (clamp_min0 nuv) m) n)
    as (c & -> & Hc & Hv); [done|done|]. simpl.
  unfold tensor_mean. rewrite (flat_vector c n Hc). f_equal. f_equal.
  apply map_seq_ext. intros i Hi. by rewrite Hv.
Qed.

Lemma weighted_mean_loss_zero_max loss nuv n :
  shape loss = [n] -> shape nuv = [n] -> (1 <= n)%nat ->
  tensor_max nuv = Ok 0 ->
  weighted_mean_loss loss nuv = Ok NonFinite.
Proof.
  intros El En Hn Em. rewrite (weighted_mean_loss_vector _ _ n 0) by done.
  f_equal. apply fmean_NonFinite.
  - destruct n; [lia|]. done.
  - apply List.Forall_forall. intros x Hx.
    apply in_map_iff in Hx as (i & <- & _). by rewrite fdiv_zero.
Qed.

Lemma weight_nonneg x m :
  x <= m -> m <> 0 -> 0 <= Rmax x 0 / m.
Proof.
  intros Hx Hm. unfold Rmax. destruct (Rle_dec x 0) as [H0|H0].
  - unfold Rdiv. lra.
  - assert (0 < m) by lra. assert (0 < / m) by (by apply Rinv_0_lt_compat).
    unfold Rdiv. nra.
Qed.

Lemma weighted_mean_loss_nonneg loss nuv n m :
  shape loss = [n] -> shape nuv = [n] -> (1 <= n)%nat ->
  tensor_max nuv = Ok m -> m <> 0 ->
  (forall i, (i < n)%nat -> 0 <= entry loss [i]) ->
  exists r, weighted_mean_loss loss nuv = Ok (Finite r) /\ 0 <= r.
Proof.
  intros El En Hn Em Hm Hl. rewrite (weighted_mean_loss_vector _ _ n m) by done.
  pose proof (tensor_max_spec _ _ Em) as [_ Hub].
  rewrite (flat_vector nuv n En) in Hub.
  set (g := fun i => entry loss [i] * (Rmax (entry nuv [i]) 0 / m)).
  assert (map (fun i => fmul (entry loss [i]) (fdiv (Rmax (entry nuv [i]) 0) m))
              (seq 0 n) = map Finite (map g (seq 0 n))) as ->.
  { rewrite map_map. apply map_ext. intros i. by rewrite fdiv_nonzero. }
  rewrite fmean_Finite by (destruct n; [lia|done]).
  eexists. split; [reflexivity|].
  rewrite length_map, length_seq.
  apply Rmult_le_pos.
  - apply sum_nonneg, List.Forall_forall. intros x Hx.
    apply in_map_iff in Hx as (i & <- & Hi). apply in_seq in Hi. unfold g.
    apply Rmult_le_pos; [apply Hl; lia|].
    apply weight_nonneg; [|done]. apply Hub.
    apply (in_map (fun i => entry nuv [i])), in_seq. lia.
  - apply Rlt_le, Rinv_0_lt_compat, lt_0_INR. lia.
Qed.

Lemma tensor_max_nonempty t :
  flat t <> [] -> exists m, tensor_max t = Ok m.
Proof.
  intros H. unfold tensor_max. destruct (flat t); [done|]. by eexists.
Qed.

Lemma tensor_max_vector t n :
  shape t = [n] -> (1 <= n)%nat -> exists m, tensor_max t = Ok m.
Proof.
  intros E Hn. apply tensor_max_nonempty. rewrite (flat_vector t n E).
  destruct n; [lia|]. done.
Qed.

Lemma weighted_mean_loss_ext loss a b n :
  shape loss = [n] -> shape a = [n] -> shape b = [n] ->
  (forall i, (i < n)%nat -> entry a [i] = entry b [i]) ->
  weighted_mean_loss loss a = weighted_mean_loss loss b.
Proof.
  intros El Ea Eb H.
  assert (Hflat : flat a = flat b).
  { rewrite (flat_vector a n Ea), (flat_vector b n Eb). by apply map_seq_ext. }
  destruct (tensor_max a) as [m|e] eqn:Em.
  - rewrite (weighted_mean_loss_vector loss a n m) by done.
    rewrite (tensor_max_flat a b Hflat) in Em.
    rewrite (weighted_mean_loss_vector loss b n m) by done.
    f_equal. f_equal. apply map_seq_ext. intros i Hi. by rewrite H.
  - unfold weighted_mean_loss, normalize_net_user_value.
    rewrite <- (tensor_max_flat a b Hflat). by rewrite Em.
Qed.

(** ** The softmax loss of a batch *)

Lemma arange_in_range n : forallb (in_range n) (flat (arange n)) = true.
Proof.
  apply forallb_in_range. intros ix Hix. simpl in Hix.
  change (In ix (indices [n])) in Hix. rewrite indices_vector in Hix.
  apply in_map_iff in Hix as (i & <- & Hi). apply in_seq in Hi. simpl. lia.
Qed.

Lemma log_softmax_nonpos (input : tensor R) c i j :
  (j < c)%nat -> log_softmax_at input c i j <= 0.
Proof.
  intros Hj. unfold log_softmax_at.
  pose proof (rsum_ge_term c (fun k => exp (entry input [i; k])) j
                (fun k => Rlt_le _ _ (exp_pos _)) Hj) as Hge; simpl in Hge.
  pose proof (exp_pos (entry input [i; j])) as Hpos.
  destruct (Rle_lt_dec (entry input [i; j])
              (ln (rsum c (fun k => exp (entry input [i; k])))))
    as [Hle|Hlt]; [lra|].
  apply exp_increasing in Hlt. rewrite exp_ln in Hlt by lra. lra.
Qed.

Lemma softmax_loss_batch ue ie B D :
  shape ue = [B; D] -> shape ie = [B; D] ->
  exists it scores loss,
    transpose ie = Ok it
    /\ matmul ue it = Ok scores
    /\ shape scores = [B; B]
    /\ (forall i j, entry scores [i; j] = score ue ie D i j)
    /\ cross_entropy scores (arange B) = Ok loss
    /\ softmax_loss ue ie = Ok loss
    /\ shape loss = [B]
    /\ forall i, (i < B)%nat ->
         entry loss [i]
         = - (score ue ie D i i
              - ln (rsum B (fun j => exp (score ue ie D i j))))
         /\ 0 <= entry loss [i].
Proof.
  intros Eu Ei.
  assert (Et : transpose ie
               = Ok (Tensor [D; B] (fun ix =>
                       match ix with
                       | i :: j :: ix' => entry ie (j :: i :: ix')
                       | _ => entry ie ix
                       end))).
  { unfold transpose. by rewrite Ei. }
  set (it := Tensor [D; B] _) in Et.
  assert (Em : matmul ue it
               = Ok (Tensor [B; B] (fun ix =>
                       rsum D (fun k => entry ue [nth 0 ix 0%nat; k]
                                        * entry it [k; nth 1 ix 0%nat])))).
  { unfold matmul. rewrite Eu. simpl. by rewrite Nat.eqb_refl. }
  set (scores := Tensor [B; B] _) in Em.
  assert (Ec : cross_entropy scores (arange B)
               = Ok (Tensor [B] (fun ix =>
                       let i := nth 0 ix 0%nat in
                       - log_softmax_at scores B i
                           (Z.to_nat (entry (arange B) [i]))))).
  { unfold cross_entropy. simpl. unfold shape_eqb.
    rewrite bool_decide_eq_true_2 by done. simpl.
    by rewrite arange_in_range. }
  set (loss := Tensor [B] _) in Ec.
  exists it, scores, loss. repeat split; try done.
  - unfold softmax_loss. rewrite Et. simpl. rewrite Em. simpl. exact Ec.
  - simpl. rewrite Nat2Z.id. done.
  - simpl. rewrite Nat2Z.id.
    pose proof (log_softmax_nonpos scores B i i H). lra.
Qed.

(** ** The net user value of a batch *)

Lemma net_user_value_matmul labels (w : list R) B :
  shape labels = [B; length w] ->
  matmul labels (tensor_of_list w)
  = Ok (Tensor [B] (fun ix =>
          rsum (length w)
               (fun k => entry labels [nth 0 ix 0%nat; k] * nth k w 0))).
Proof. intros E. unfold matmul. rewrite E. simpl. by rewrite Nat.eqb_refl. Qed.

Lemma squared_error_mean (a b : tensor R) n :
  shape a = [n] -> shape b = [n] -> (1 <= n)%nat ->
  mse_loss a b
  = Ok (Finite (rsum n (fun i => (entry a [i] - entry b [i])
                               * (entry a [i] - entry b [i])) / INR n)).
Proof.
  intros Ea Eb Hn. unfold mse_loss.
  destruct (map2_broadcast_vector (fun x y => (x - y) * (x - y)) a b n Ea Eb)
    as (d & -> & Hd & Hv). simpl.
  rewrite (flat_vector d n Hd).
  rewrite fmean_Finite by (destruct n; [lia|done]).
  rewrite length_map, length_seq. unfold rsum. do 4 f_equal.
  by apply map_seq_ext.
Qed.

Section Loss.
Variables (theta : parameters) (num_items : Z).
Variables (user_id_hash_size DU IU item_id_hash_size DI II : nat).
Variables (user_value_weights : list R) (knn_module : attr).

Let model (debias : bool) :=
  TwoTowerBaseRetrieval_init theta num_items user_id_hash_size DU IU
    item_id_hash_size DI II user_value_weights knn_module debias.

Variables (position : tensor Z) (labels : tensor R) (B : nat).
Hypothesis Hlabels : shape labels = [B; length user_value_weights].

Let nuv : tensor R :=
  Tensor [B] (fun ix =>
    rsum (length user_value_weights)
         (fun k => entry labels [nth 0 ix 0%nat; k]
                   * nth k user_value_weights 0)).

Lemma net_user_value_plain :
  debiased_net_user_value (model false) position labels
  = Ok (nuv, Finite 0).
Proof.
  unfold debiased_net_user_value, model.
  rewrite init_user_value_weights. simpl.
  rewrite (net_user_value_matmul _ _ B Hlabels). simpl.
  by rewrite init_enable_position_debiasing.
Qed.

Lemma init_position_bias_net_user_value :
  getattr TwoTowerBaseRetrieval (model true) "position_bias_net_user_value"
  = Ok (AEmbedding {| num_embeddings := 100; embedding_dim := 1;
                      weight := position_bias_weight theta |}).
Proof. reflexivity. Qed.

Lemma net_user_value_debiased :
  shape position = [B] -> ids_in_range 100 position -> (1 <= B)%nat ->
  exists bias nuv',
    shape bias = [B]
    /\ (forall i, entry bias [i]
                  = position_bias_weight theta
                      (Z.to_nat (entry position [i])) 0)
    /\ shape nuv' = [B]
    /\ (forall i, (i < B)%nat ->
                  entry nuv' [i] = entry nuv [i] - entry bias [i])
    /\ debiased_net_user_value (model true) position labels
       = Ok (nuv',
             Finite (rsum B (fun i => (entry nuv [i] - entry bias [i])
                                      * (entry nuv [i] - entry bias [i]))
                     / INR B)).
Proof.
  intros Hp Hr HB. unfold debiased_net_user_value.
  pose proof init_position_bias_net_user_value as Hpb. unfold model in *.
  rewrite init_user_value_weights. simpl.
  rewrite (net_user_value_matmul _ _ B Hlabels). fold nuv. simpl.
  rewrite init_enable_position_debiasing. simpl.
  rewrite Hpb. simpl.
  rewrite embedding_in_range by done. simpl.
  unfold squeeze. simpl. rewrite Hp. simpl.
  set (bias := Tensor [B] _).
  rewrite (squared_error_mean nuv bias B) by done. simpl.
  destruct (map2_broadcast_vector Rminus nuv bias B) as (nuv' & -> & Hs & Hv);
    [done|done|]. simpl.
  exists bias, nuv'. repeat split; try done.
Qed.
End Loss.

(** ** The loss from its three blocks *)

Lemma train_forward_loss_blocks self ue ie position labels loss nuv pbl b :
  softmax_loss ue ie = Ok loss ->
  debiased_net_user_value self position labels = Ok (nuv, pbl) ->
  getattr TwoTowerBaseRetrieval self "enable_position_debiasing"
  = Ok (ABool b) ->
  train_forward_loss self ue ie position labels
  = let! l := weighted_mean_loss loss nuv in
    Ok (if b then fadd l pbl else l).
Proof.
  intros Es En Eb. unfold train_forward_loss. rewrite Es, En. simpl.
  destruct (weighted_mean_loss loss nuv); simpl; [|done].
  rewrite Eb. simpl. by destruct b.
Qed.

Lemma rsum_ext n (f g : nat -> R) :
  (forall i, (i < n)%nat -> f i = g i) -> rsum n f = rsum n g.
Proof. intros H. unfold rsum. f_equal. by apply map_seq_ext. Qed.

Lemma normalize_zero_max nuv :
  tensor_max nuv = Ok 0 ->
  exists w, normalize_net_user_value nuv = Ok w
    /\ shape w = shape nuv /\ forall ix, entry w ix = NonFinite.
Proof.
  intros Em. rewrite (normalize_unfold _ _ Em). eexists. split; [done|].
  split; [done|]. intros ix. simpl. apply fdiv_zero.
Qed.

Lemma ids_in_range_vector n (l : list Z) :
  forallb (in_range n) l = true -> ids_in_range n (vector 0%Z l).
Proof.
  intros H. apply forallb_in_range. rewrite (flat_vector _ (length l)) by done.
  rewrite forallb_forall in *. intros z Hz.
  apply in_map_iff in Hz as (i & <- & Hi). apply in_seq in Hi. simpl.
  apply H, nth_In. lia.
Qed.
(** C9: constructing a [UserHistoryEncoder] fails for every
    [item_id_embedding_dim], [history_len] and [num_heads].
    [positional_encoding] has no [self] parameter: the bound-method call
    passes the instance as the positional [seq_len] and gives [seq_len]
    again by keyword, so binding the arguments raises TypeError, before
    the body that builds the table is entered. *)
Theorem UserHistoryEncoder_init_type_error
    (MultiheadAttention : Z -> Z -> result attr)
    (item_id_embedding_dim history_len num_heads : Z) :
  UserHistoryEncoder_init MultiheadAttention
    item_id_embedding_dim history_len num_heads
  = Raise (TypeError (MultipleValues "seq_len"))
  /\ forall self : gmap string attr,
       bind_args (fparams positional_encoding_def) [VInstance self]
         [("seq_len", VInt history_len); ("d_model", VInt item_id_embedding_dim)]
       = Raise (TypeError (MultipleValues "seq_len")).
Proof. split; [reflexivity | intros self; reflexivity]. Qed.

Lemma positional_encoding_def_plain_call (h d : nat) :
  call_function positional_encoding_def
    [VInt (Z.of_nat h); VInt (Z.of_nat d)] []
  = let! PE := positional_encoding h d in Ok (VTensor PE).
Proof.
  unfold call_function.
  assert (bind_args (fparams positional_encoding_def)
            [VInt (Z.of_nat h); VInt (Z.of_nat d)] []
          = Ok (<["seq_len" := VInt (Z.of_nat h)]>
                  (<["d_model" := VInt (Z.of_nat d)]> ∅))) as -> by reflexivity.
  simpl. unfold arg_int.
  rewrite lookup_insert_eq. simpl.
  rewrite lookup_insert_ne, lookup_insert_eq by done. simpl.
  destruct (Z.ltb_spec (Z.of_nat h) 0); [lia|].
  destruct (Z.ltb_spec (Z.of_nat d) 0); [lia|].
  simpl. by rewrite !Nat2Z.id.
Qed.

(** C10, as the code has it: a model built by [__init__] has no
    [user_history_encoder], so [compute_user_embedding], [forward] and
    [train_forward] raise on every input and return nothing.  The
    exception is the AttributeError of that lookup whenever every item
    of the history is a row of the item embedding table (otherwise the
    embedding of the history, one statement earlier, has already
    raised). *)
Theorem entry_points_never_return
    theta num_items user_id_hash_size DU IU item_id_hash_size DI II
    user_value_weights knn_module debias
    user_id user_features user_history item_id item_features position labels :
  let self :=
    TwoTowerBaseRetrieval_init theta num_items user_id_hash_size DU IU
      item_id_hash_size DI II user_value_weights knn_module debias in
  raises (compute_user_embedding self user_id user_features user_history)
  /\ raises (forward self user_id user_features user_history)
  /\ raises (train_forward self user_id user_features user_history
                           item_id item_features position labels)
  /\ (ids_in_range item_id_hash_size user_history ->
      compute_user_embedding self user_id user_features user_history
      = Raise (AttributeError "user_history_encoder")
      /\ forward self user_id user_features user_history
         = Raise (AttributeError "user_history_encoder")
      /\ train_forward self user_id user_features user_history
                       item_id item_features position labels
         = Raise (AttributeError "user_history_encoder")).
Proof.
  intros self. subst self. split; [|split; [|split]].
  - apply compute_user_embedding_raises.
  - apply forward_raises.
  - apply train_forward_raises.
  - intros H. unfold forward, train_forward.
    by rewrite compute_user_embedding_attribute_error.
Qed.

Lemma entry_points_never_return_witness :
  ids_in_range 3 (matrix 0%Z 1 2 [[0; 2]]%Z)
  /\ compute_user_embedding demo_model (vector 0%Z [1%Z])
       (matrix 0 1 3 [[1; 2; 3]]) (matrix 0%Z 1 2 [[0; 2]]%Z)
     = Raise (AttributeError "user_history_encoder").
Proof.
  assert (H : ids_in_range 3 (matrix 0%Z 1 2 [[0; 2]]%Z)).
  { apply forallb_in_range. reflexivity. }
  split; [exact H|].
  exact (proj1 (proj2 (proj2 (proj2
    (entry_points_never_return zero_parameters 5 4 2 3 3 2 3 [1; 0] no_knn false
       (vector 0%Z [1%Z]) (matrix 0 1 3 [[1; 2; 3]]) (matrix 0%Z 1 2 [[0; 2]]%Z)
       (vector 0%Z [1%Z]) (matrix 0 1 3 [[1; 2; 3]]) (vector 0%Z [0%Z])
       (matrix 0 1 2 [[1; 0]])))) H)).
Defined.

Lemma compute_user_embedding_index_error_first :
  compute_user_embedding demo_model (vector 0%Z [1%Z])
    (matrix 0 1 3 [[1; 2; 3]]) (matrix 0%Z 1 2 [[0; 7]]%Z)
  = Raise IndexError
  /\ compute_user_embedding demo_model (vector 0%Z [1%Z])
       (matrix 0 1 3 [[1; 2; 3]]) (matrix 0%Z 1 2 [[0; 7]]%Z)
     <> Raise (AttributeError "user_history_encoder").
Proof.
  assert (E : compute_user_embedding demo_model (vector 0%Z [1%Z])
                (matrix 0 1 3 [[1; 2; 3]]) (matrix 0%Z 1 2 [[0; 7]]%Z)
              = Raise IndexError) by reflexivity.
  split; [exact E | rewrite E; discriminate].
Qed.

(** C1: on a valid batch [compute_user_embedding] returns no embedding.
    The model as constructed has no [user_history_encoder], so the call
    raises AttributeError; and with an encoder attached that returns the
    (B, 2, DI) summary, [torch.cat] along axis 1 refuses to join the two
    matrices with a tensor of three axes, so no input of width
    2 DU + DI ever reaches the final linear layer.  Here B = 2, H = 3,
    DU = DI = 2. *)
Theorem compute_user_embedding_fails_on_valid_batch
    (theta : parameters) (knn_module : attr) :
  let self :=
    TwoTowerBaseRetrieval_init theta 5 4 2 3 3 2 3 [1; 0] knn_module false in
  let user_id := vector 0%Z [1; 3]%Z in
  let user_features := matrix 0 2 3 [[1; 2; 3]; [4; 5; 6]] in
  let user_history := matrix 0%Z 2 3 [[0; 2; 1]; [1; 1; 0]]%Z in
  compute_user_embedding self user_id user_features user_history
  = Raise (AttributeError "user_history_encoder")
  /\ forall summary : tensor R -> result (tensor R),
       (forall x, shape x = [2; 3; 2]%nat ->
                  exists y, summary x = Ok y /\ shape y = [2; 2; 2]%nat) ->
       compute_user_embedding
         (<["user_history_encoder" := AModule summary]> self)
         user_id user_features user_history
       = Raise (RuntimeError RankMismatch).
Proof.
  intros self user_id user_features user_history.
  assert (Hh : ids_in_range 3 user_history)
    by (apply forallb_in_range; reflexivity).
  split.
  - by apply compute_user_embedding_attribute_error.
  - intros summary Hs.
    apply (compute_user_embedding_with_encoder _ _ _ _ _ _ _ _ _ _ _
             summary user_id user_features user_history 2 3 2 2);
      try done.
    by apply ids_in_range_vector.
Qed.

Lemma compute_user_embedding_fails_on_valid_batch_witness :
  compute_user_embedding
    (<["user_history_encoder" :=
         AModule (fun _ => Ok (zeros [2; 2; 2]%nat))]>
       (TwoTowerBaseRetrieval_init zero_parameters 5 4 2 3 3 2 3 [1; 0]
          no_knn false))
    (vector 0%Z [1; 3]%Z) (matrix 0 2 3 [[1; 2; 3]; [4; 5; 6]])
    (matrix 0%Z 2 3 [[0; 2; 1]; [1; 1; 0]]%Z)
  = Raise (RuntimeError RankMismatch).
Proof.
  apply (proj2 (compute_user_embedding_fails_on_valid_batch
                  zero_parameters no_knn)).
  intros x _. exists (zeros [2; 2; 2]%nat). split; reflexivity.
Defined.

(** C4: for item ids of shape (B) and item features of shape (B, II),
    with DI at least 1, [compute_item_embeddings] returns no embedding:
    the concatenation has width 2 DI, [item_tower_arch] is a linear layer
    of input width DI, and applying it raises a size mismatch. *)
Theorem compute_item_embeddings_width_mismatch
    theta num_items user_id_hash_size DU IU item_id_hash_size DI II
    user_value_weights knn_module debias
    (item_id : tensor Z) (item_features : tensor R) (B B' : nat) :
  (1 <= DI)%nat ->
  shape item_id = [B] ->
  ids_in_range item_id_hash_size item_id ->
  shape item_features = [B'; II] ->
  compute_item_embeddings
    (TwoTowerBaseRetrieval_init theta num_items user_id_hash_size DU IU
       item_id_hash_size DI II user_value_weights knn_module debias)
    item_id item_features
  = Raise (RuntimeError SizeMismatch).
Proof.
  intros HDI Hid Hrange Hfeat. unfold compute_item_embeddings.
  rewrite init_item_id_embedding_arch. simpl.
  rewrite embedding_in_range by done. simpl.
  rewrite init_item_features_arch. simpl.
  unfold linear at 1. rewrite Hfeat. simpl.
  rewrite Nat.eqb_refl. simpl.
  rewrite (cat_pair_matrices _ _ B DI B' DI) by (simpl; by rewrite ?Hid).
  destruct (B =? B')%nat; simpl; [|done].
  rewrite init_item_tower_arch. simpl.
  unfold linear. simpl.
  destruct (Nat.eqb_spec (DI + DI) DI) as [E|E]; [lia|done].
Qed.

Lemma compute_item_embeddings_width_mismatch_witness :
  compute_item_embeddings demo_model (vector 0%Z [2; 0]%Z)
    (matrix 0 2 3 [[1; 2; 3]; [4; 5; 6]])
  = Raise (RuntimeError SizeMismatch).
Proof.
  apply (compute_item_embeddings_width_mismatch zero_parameters 5 4 2 3 3 2 3
           [1; 0] no_knn false _ _ 2 2).
  - lia.
  - reflexivity.
  - by apply ids_in_range_vector.
  - reflexivity.
Defined.

(** C5, as the code has it: [positional_encoding] returns an H x D table
    whose entry (pos, 2i) is sin(pos / 10000^(2(2i)/D)) and whose entry
    (pos, 2i+1) is cos(pos / 10000^(2(2i+1)/D)): the exponent is twice
    the column over D.  Every column below D is written, the last one by
    the sine when D is odd.  [flip([0])] of the table has row r equal to
    row H-1-r of the table. *)
Theorem positional_encoding_table (seq_len d_model : nat) :
  exists PE F,
    positional_encoding seq_len d_model = Ok PE
    /\ shape PE = [seq_len; d_model]
    /\ (forall pos i, (pos < seq_len)%nat ->
          ((2 * i < d_model)%nat ->
           entry PE [pos; (2 * i)%nat]
           = sin (INR pos / Rpower 10000 (INR (2 * (2 * i)) / INR d_model)))
          /\ ((2 * i + 1 < d_model)%nat ->
              entry PE [pos; (2 * i + 1)%nat]
              = cos (INR pos
                     / Rpower 10000 (INR (2 * (2 * i + 1)) / INR d_model))))
    /\ flip0 PE = Ok F
    /\ shape F = [seq_len; d_model]
    /\ forall r c, entry F [r; c] = entry PE [(seq_len - 1 - r)%nat; c].
Proof.
  destruct (positional_encoding_spec seq_len d_model) as (PE & E & Hs & H).
  destruct (flip0_matrix PE _ _ Hs) as (F & EF & HsF & HF).
  exists PE, F. repeat split; try done.
  - intros Hc. rewrite H by done. unfold pe_value.
    by rewrite Nat.even_mul.
  - intros Hc. rewrite H by done. unfold pe_value.
    replace (2 * i + 1)%nat with (S (2 * i)) by lia.
    by rewrite Nat.even_succ, <- Nat.negb_even, Nat.even_mul.
Qed.

Lemma positional_encoding_table_witness :
  exists PE,
    positional_encoding 2 4 = Ok PE
    /\ entry PE [1; 2]%nat
       = sin (INR 1 / Rpower 10000 (INR (2 * (2 * 1)) / INR 4)).
Proof.
  destruct (positional_encoding_table 2 4) as (PE & F & E & _ & H & _).
  exists PE. split; [exact E|].
  apply (proj1 (H 1%nat 1%nat ltac:(lia))). lia.
Defined.

(** C7: with DI = 1 (which every head count 1 divides) and a history of
    at least one position, [forward] returns no summary: [squeeze(1)]
    removes the width-1 axis of the first item, and [torch.stack]
    refuses to stack a (B) tensor with the (B, 1) mean. *)
Theorem forward_fails_on_width_1
    (self : gmap string attr) (pe : tensor R)
    (mha : tensor R -> tensor R -> tensor R -> result (tensor R * tensor R))
    (B H : nat) (user_history : tensor R) :
  self !! "positional_embeddings" = Some (ATensor pe) ->
  self !! "multihead_attn" = Some (AAttention mha) ->
  shape pe = [H; 1%nat] ->
  shape user_history = [B; H; 1%nat] ->
  (forall x, shape x = [H; B; 1%nat] ->
             exists out w, mha x x x = Ok (out, w)
                           /\ shape out = [H; B; 1%nat]) ->
  (1 <= H)%nat ->
  UserHistoryEncoder_forward self user_history
  = Raise (RuntimeError SizeMismatch).
Proof.
  intros Hpe Hmha Hs Hx Hm HH.
  by apply (forward_width_1 self pe mha B H 1 user_history).
Qed.

Lemma forward_fails_on_width_1_witness :
  UserHistoryEncoder_forward (demo_encoder (zeros [1; 1]%nat))
    (zeros [1; 1; 1]%nat)
  = Raise (RuntimeError SizeMismatch).
Proof.
  apply (forward_fails_on_width_1 _ (zeros [1; 1]%nat)
           (fun q k v => Ok (v, zeros [1; 1; 1]%nat)) 1 1);
    [reflexivity | reflexivity | reflexivity | reflexivity | | lia].
  intros x Hx. exists x, (zeros [1; 1; 1]%nat). by split.
Defined.

(** C3, as the code has it: the net user value is clamped at zero and
    divided, element by element, by the largest value of the vector
    before the clamp.  In a batch with exactly one positive value V,
    all others being at most 0, that largest value is V and the weight
    is 1 at the positive example and 0 everywhere else. *)
Theorem normalize_net_user_value_weights (net_user_value : tensor R) (B : nat) :
  shape net_user_value = [B] -> (1 <= B)%nat ->
  exists m w,
    tensor_max net_user_value = Ok m
    /\ In m (flat net_user_value)
    /\ (forall y, In y (flat net_user_value) -> y <= m)
    /\ normalize_net_user_value net_user_value = Ok w
    /\ shape w = [B]
    /\ (forall i, entry w [i] = fdiv (Rmax (entry net_user_value [i]) 0) m)
    /\ forall k V,
         (k < B)%nat -> entry net_user_value [k] = V -> 0 < V ->
         (forall i, (i < B)%nat -> i <> k -> entry net_user_value [i] <= 0) ->
         m = V
         /\ forall i, (i < B)%nat ->
              entry w [i] = Finite (if (i =? k)%nat then 1 else 0).
Proof.
  intros Hs HB.
  destruct (tensor_max_vector _ _ Hs HB) as (m & Em).
  destruct (tensor_max_spec _ _ Em) as [Hin Hub].
  exists m. eexists. split; [done|]. split; [done|]. split; [done|].
  split; [by apply normalize_unfold|]. split; [done|]. split; [done|].
  intros k V Hk HV Hpos Hrest.
  assert (Hm : m = V).
  { rewrite (flat_vector _ B Hs) in Hin, Hub.
    assert (V <= m).
    { apply Hub. rewrite <- HV.
      apply (in_map (fun i => entry net_user_value [i])), in_seq. lia. }
    apply in_map_iff in Hin as (j & Hj & Hjn). apply in_seq in Hjn.
    destruct (Nat.eq_dec j k) as [->|Hne]; [lra|].
    specialize (Hrest j ltac:(lia) Hne). lra. }
  split; [done|]. intros i Hi. simpl. rewrite Hm.
  rewrite fdiv_nonzero by lra. f_equal.
  destruct (Nat.eqb_spec i k) as [->|Hne].
  - rewrite HV, Rmax_left by lra. field. lra.
  - rewrite Rmax_right by (apply Hrest; done). unfold Rdiv. lra.
Qed.

Lemma normalize_net_user_value_weights_witness :
  exists w,
    normalize_net_user_value (vector 0 [-1; 3; 0]) = Ok w
    /\ entry w [0%nat] = Finite 0
    /\ entry w [1%nat] = Finite 1
    /\ entry w [2%nat] = Finite 0.
Proof.
  destruct (normalize_net_user_value_weights (vector 0 [-1; 3; 0]) 3 eq_refl
              ltac:(lia)) as (m & w & _ & _ & _ & E & _ & _ & H).
  destruct (H 1%nat 3 ltac:(lia) eq_refl ltac:(lra)) as [_ Hw].
  { intros i Hi Hne.
    destruct i as [|[|[|i]]]; simpl; [lra|done|lra|exfalso; lia]. }
  exists w. split; [exact E|].
  split; [|split]; [apply (Hw 0%nat)|apply (Hw 1%nat)|apply (Hw 2%nat)]; lia.
Defined.

Lemma normalize_divides_by_unclamped_max :
  match normalize_net_user_value (vector 0 [-1; -2]),
        normalize_post_clamp (vector 0 [-1; -2]) with
  | Ok w, Ok w' => entry w [0%nat] = Finite 0 /\ entry w' [0%nat] = NonFinite
  | _, _ => False
  end.
Proof.
  assert (E1 : tensor_max (vector 0 [-1; -2]) = Ok (-1)).
  { unfold tensor_max. simpl. f_equal. apply Rmax_left. lra. }
  assert (E2 : tensor_max (clamp_min0 (vector 0 [-1; -2])) = Ok 0).
  { unfold tensor_max. simpl. f_equal.
    rewrite (Rmax_right (-1) 0), (Rmax_right (-2) 0) by lra.
    apply Rmax_left. lra. }
  rewrite (normalize_unfold _ _ E1).
  unfold normalize_post_clamp. rewrite E2. simpl. split.
  - rewrite fdiv_nonzero by lra. f_equal. rewrite Rmax_right by lra.
    unfold Rdiv. lra.
  - apply fdiv_zero.
Qed.

(** C2, as the code has it: when the largest net user value of the batch
    (taken before the clamp) is exactly 0, every weight is the result of
    a division by zero; nothing is raised and no fallback applies: the
    loss returned is not finite. *)
Theorem zero_maximum_gives_non_finite_loss
    theta num_items user_id_hash_size DU IU item_id_hash_size DI II
    user_value_weights knn_module debias
    (user_embedding item_embeddings : tensor R) (position : tensor Z)
    (labels loss net_user_value : tensor R) (position_bias_loss : fnum)
    (B : nat) :
  let self :=
    TwoTowerBaseRetrieval_init theta num_items user_id_hash_size DU IU
      item_id_hash_size DI II user_value_weights knn_module debias in
  softmax_loss user_embedding item_embeddings = Ok loss ->
  shape loss = [B] ->
  debiased_net_user_value self position labels
  = Ok (net_user_value, position_bias_loss) ->
  shape net_user_value = [B] ->
  (1 <= B)%nat ->
  tensor_max net_user_value = Ok 0 ->
  (exists w, normalize_net_user_value net_user_value = Ok w
             /\ forall ix, entry w ix = NonFinite)
  /\ train_forward_loss self user_embedding item_embeddings position labels
     = Ok NonFinite.
Proof.
  intros self Es Hl En Hn HB Em. split.
  - destruct (normalize_zero_max _ Em) as (w & E & _ & H). by exists w.
  - rewrite (train_forward_loss_blocks _ _ _ _ _ loss net_user_value
               position_bias_loss debias Es En)
      by apply init_enable_position_debiasing.
    rewrite (weighted_mean_loss_zero_max _ _ B) by done. simpl.
    by destruct debias.
Qed.

Lemma zero_maximum_gives_non_finite_loss_witness :
  train_forward_loss demo_model
    (matrix 0 1 2 [[1; 0]]) (matrix 0 1 2 [[0; 1]])
    (vector 0%Z [0%Z]) (matrix 0 1 2 [[0; 5]])
  = Ok NonFinite.
Proof.
  destruct (softmax_loss_batch (matrix 0 1 2 [[1; 0]]) (matrix 0 1 2 [[0; 1]])
              1 2 eq_refl eq_refl)
    as (it & scores & loss & _ & _ & _ & _ & _ & Es & Hl & _).
  refine (proj2 (zero_maximum_gives_non_finite_loss zero_parameters 5 4 2 3 3
                   2 3 [1; 0] no_knn false _ _ _ _ loss _ _ 1 Es Hl
                   (net_user_value_plain zero_parameters 5 4 2 3 3 2 3 [1; 0]
                      no_knn (vector 0%Z [0%Z]) (matrix 0 1 2 [[0; 5]]) 1
                      eq_refl)
                   eq_refl ltac:(lia) _)).
  unfold tensor_max. simpl. f_equal. unfold rsum. simpl. lra.
Defined.

Lemma all_negative_batch_has_finite_loss :
  (exists nuv,
     matmul (matrix 0 1 2 [[-1; 5]]) (tensor_of_list [1; 0]) = Ok nuv
     /\ shape nuv = [1%nat]
     /\ forall i, (i < 1)%nat -> Rmax (entry nuv [i]) 0 <= 0)
  /\ exists r,
       train_forward_loss demo_model
         (matrix 0 1 2 [[1; 0]]) (matrix 0 1 2 [[0; 1]])
         (vector 0%Z [0%Z]) (matrix 0 1 2 [[-1; 5]])
       = Ok (Finite r).
Proof.
  split.
  - eexists.
    split; [apply (net_user_value_matmul (matrix 0 1 2 [[-1; 5]]) [1; 0] 1);
            reflexivity|].
    split; [reflexivity|]. intros i Hi. simpl.
    rewrite Rmax_right; [lra|].
    replace i with 0%nat by lia. unfold rsum. simpl. lra.
  - destruct (softmax_loss_batch (matrix 0 1 2 [[1; 0]])
                (matrix 0 1 2 [[0; 1]]) 1 2 eq_refl eq_refl)
      as (it & scores & loss & _ & _ & _ & _ & _ & Es & Hl & Hloss).
    unfold demo_model.
    rewrite (train_forward_loss_blocks _ _ _ _ _ loss _ _ false Es
               (net_user_value_plain zero_parameters 5 4 2 3 3 2 3 [1; 0]
                  no_knn (vector 0%Z [0%Z]) (matrix 0 1 2 [[-1; 5]]) 1
                  eq_refl))
      by apply init_enable_position_debiasing.
    match goal with
    | |- context [weighted_mean_loss loss ?nuv] =>
        destruct (weighted_mean_loss_nonneg loss nuv 1 (-1))
          as (r & -> & _); try done
    end.
    + unfold tensor_max. simpl. f_equal. unfold rsum. simpl. lra.
    + lra.
    + intros i Hi. by apply Hloss.
    + by exists r.
Qed.

(** Lines 250 to 294 without position debiasing: from user and item
    embeddings of one width,
    the loss is computed from the B x B matrix of scores
    user_embedding . item_embeddings^T, the unreduced softmax
    cross-entropy of each row against its diagonal entry, the weight of
    each example and the mean over the batch.  Without position
    debiasing the loss is a non-negative number whenever the largest net
    user value of the batch is not 0; when it is 0 the loss is not
    finite. *)
Lemma train_forward_loss_plain_batch
    theta num_items user_id_hash_size DU IU item_id_hash_size DI II
    user_value_weights knn_module
    (user_embedding item_embeddings : tensor R) (position : tensor Z)
    (labels : tensor R) (B D : nat) :
  let self :=
    TwoTowerBaseRetrieval_init theta num_items user_id_hash_size DU IU
      item_id_hash_size DI II user_value_weights knn_module false in
  shape user_embedding = [B; D] ->
  shape item_embeddings = [B; D] ->
  shape labels = [B; length user_value_weights] ->
  (1 <= B)%nat ->
  exists item_embeddings_t scores loss net_user_value m l,
    transpose item_embeddings = Ok item_embeddings_t
    /\ matmul user_embedding item_embeddings_t = Ok scores
    /\ shape scores = [B; B]
    /\ (forall i j,
          entry scores [i; j] = score user_embedding item_embeddings D i j)
    /\ cross_entropy scores (arange B) = Ok loss
    /\ shape loss = [B]
    /\ (forall i, (i < B)%nat ->
          entry loss [i]
          = - (score user_embedding item_embeddings D i i
               - ln (rsum B (fun j =>
                       exp (score user_embedding item_embeddings D i j)))))
    /\ matmul labels (tensor_of_list user_value_weights) = Ok net_user_value
    /\ tensor_max net_user_value = Ok m
    /\ train_forward_loss self user_embedding item_embeddings position labels
       = Ok l
    /\ l = fmean (map (fun i =>
                         fmul (entry loss [i])
                              (fdiv (Rmax (entry net_user_value [i]) 0) m))
                      (seq 0 B))
    /\ (m <> 0 -> exists r, l = Finite r /\ 0 <= r)
    /\ (m = 0 -> l = NonFinite).
Proof.
  intros self Hu Hi Hlab HB.
  destruct (softmax_loss_batch _ _ B D Hu Hi)
    as (it & scores & loss & Et & Em & Hs & Hsc & Ec & Es & Hl & Hloss).
  pose proof (net_user_value_matmul _ _ B Hlab) as En.
  pose proof (net_user_value_plain theta num_items user_id_hash_size DU IU
                item_id_hash_size DI II user_value_weights knn_module
                position labels B Hlab) as Eb.
  set (nuv := Tensor [B] _) in En, Eb.
  destruct (tensor_max_vector nuv B eq_refl HB) as (m & Emax).
  pose proof (train_forward_loss_blocks _ _ _ _ _ loss nuv (Finite 0) false
                Es Eb (init_enable_position_debiasing _ _ _ _ _ _ _ _ _ _ _))
    as Et'.
  pose proof (weighted_mean_loss_vector loss nuv B m Hl eq_refl Emax) as Ew.
  rewrite Ew in Et'. simpl in Et'.
  exists it, scores, loss, nuv, m. eexists.
  do 9 (split; [first [done | intros i Hi'; by apply Hloss]|]).
  split; [exact Et'|]. split; [reflexivity|]. split.
  - intros Hm.
    destruct (weighted_mean_loss_nonneg loss nuv B m Hl eq_refl HB Emax Hm)
      as (r & Er & Hr); [intros i Hi'; by apply Hloss|].
    exists r. split; [|done]. rewrite Ew in Er. by injection Er.
  - intros ->.
    pose proof (weighted_mean_loss_zero_max loss nuv B Hl eq_refl HB Emax)
      as Ez.
    rewrite Ew in Ez. by injection Ez.
Qed.

(** Lines 250 to 299 with position debiasing: the bias of each example is looked up
    in the position-bias table by its position index, the loss is
    weighted by the net user value minus that bias, and the mean squared
    difference between net user value and bias is added to the result.
    With a table of zeros the loss is the loss without debiasing plus
    the mean of the squared net user values. *)
Lemma train_forward_loss_debiased_batch
    theta num_items user_id_hash_size DU IU item_id_hash_size DI II
    user_value_weights knn_module
    (user_embedding item_embeddings : tensor R) (position : tensor Z)
    (labels : tensor R) (B D : nat) :
  let plain :=
    TwoTowerBaseRetrieval_init theta num_items user_id_hash_size DU IU
      item_id_hash_size DI II user_value_weights knn_module false in
  let debiased :=
    TwoTowerBaseRetrieval_init theta num_items user_id_hash_size DU IU
      item_id_hash_size DI II user_value_weights knn_module true in
  shape user_embedding = [B; D] ->
  shape item_embeddings = [B; D] ->
  shape labels = [B; length user_value_weights] ->
  shape position = [B] ->
  ids_in_range 100 position ->
  (1 <= B)%nat ->
  exists loss nuv bias nuv',
    softmax_loss user_embedding item_embeddings = Ok loss
    /\ matmul labels (tensor_of_list user_value_weights) = Ok nuv
    /\ shape bias = [B]
    /\ (forall i, entry bias [i]
                  = position_bias_weight theta
                      (Z.to_nat (entry position [i])) 0)
    /\ shape nuv' = [B]
    /\ (forall i, (i < B)%nat ->
                  entry nuv' [i] = entry nuv [i] - entry bias [i])
    /\ train_forward_loss debiased user_embedding item_embeddings
                          position labels
       = (let! l := weighted_mean_loss loss nuv' in
          Ok (fadd l (Finite
                (rsum B (fun i => (entry nuv [i] - entry bias [i])
                                  * (entry nuv [i] - entry bias [i]))
                 / INR B))))
    /\ train_forward_loss plain user_embedding item_embeddings
                          position labels
       = weighted_mean_loss loss nuv
    /\ ((forall p c, position_bias_weight theta p c = 0) ->
        exists l,
          train_forward_loss plain user_embedding item_embeddings
                             position labels = Ok l
          /\ train_forward_loss debiased user_embedding item_embeddings
                                position labels
             = Ok (fadd l (Finite
                     (rsum B (fun i => entry nuv [i] * entry nuv [i])
                      / INR B)))).
Proof.
  intros plain debiased Hu Hi Hlab Hp Hr HB.
  destruct (softmax_loss_batch _ _ B D Hu Hi)
    as (it & scores & loss & _ & _ & _ & _ & _ & Es & Hl & _).
  pose proof (net_user_value_matmul _ _ B Hlab) as En.
  pose proof (net_user_value_plain theta num_items user_id_hash_size DU IU
                item_id_hash_size DI II user_value_weights knn_module
                position labels B Hlab) as Eplain.
  destruct (net_user_value_debiased theta num_items user_id_hash_size DU IU
              item_id_hash_size DI II user_value_weights knn_module
              position labels B Hlab Hp Hr HB)
    as (bias & nuv' & Hbs & Hb & Hns & Hn & Edeb).
  set (nuv := Tensor [B] _) in En, Eplain, Hn, Edeb.
  pose proof (train_forward_loss_blocks _ _ _ _ _ loss nuv (Finite 0) false
                Es Eplain
                (init_enable_position_debiasing _ _ _ _ _ _ _ _ _ _ _))
    as Tplain.
  pose proof (train_forward_loss_blocks _ _ _ _ _ loss nuv' _ true
                Es Edeb
                (init_enable_position_debiasing _ _ _ _ _ _ _ _ _ _ _))
    as Tdeb.
  assert (Tplain' : train_forward_loss plain user_embedding item_embeddings
                      position labels = weighted_mean_loss loss nuv).
  { unfold plain. rewrite Tplain.
    by destruct (weighted_mean_loss loss nuv). }
  exists loss, nuv, bias, nuv'.
  do 6 (split; [done|]). split; [exact Tdeb|]. split; [exact Tplain'|].
  intros Hzero.
  destruct (tensor_max_vector nuv B eq_refl HB) as (m & Emax).
  pose proof (weighted_mean_loss_vector loss nuv B m Hl eq_refl Emax) as Ew.
  eexists. split; [rewrite Tplain'; exact Ew|].
  unfold debiased. rewrite Tdeb.
  rewrite (weighted_mean_loss_ext loss nuv' nuv B Hl Hns eq_refl).
  - rewrite Ew. simpl. do 4 f_equal. apply rsum_ext. intros i _.
    rewrite Hb, Hzero. lra.
  - intros i Hi'. rewrite Hn, Hb, Hzero by done. lra.
Qed.

(** ** [train_forward] on an instance whose towers return *)

(** Once the two towers have returned, [train_forward] is the loss of
    lines 250 to 299 on their embeddings. *)
Lemma train_forward_with_embeddings self user_id user_features user_history
    item_id item_features position labels ue ie :
  compute_user_embedding self user_id user_features user_history = Ok ue ->
  compute_item_embeddings self item_id item_features = Ok ie ->
  train_forward self user_id user_features user_history
                item_id item_features position labels
  = train_forward_loss self ue ie position labels.
Proof. intros Eu Ei. unfold train_forward. by rewrite Eu, Ei. Qed.

(** Lines 271 to 299 read three attributes of the instance, the third
    only when position debiasing is enabled. *)
Lemma debiased_net_user_value_attrs self self' position labels :
  self !! "user_value_weights" = self' !! "user_value_weights" ->
  self !! "enable_position_debiasing"
  = self' !! "enable_position_debiasing" ->
  (self !! "enable_position_debiasing" = Some (ABool false)
   \/ self !! "position_bias_net_user_value"
      = self' !! "position_bias_net_user_value") ->
  debiased_net_user_value self position labels
  = debiased_net_user_value self' position labels.
Proof.
  intros Hw Hf Hp. unfold debiased_net_user_value, getattr.
  rewrite <- Hw, <- Hf.
  destruct (self !! "user_value_weights") as [a|]; simpl; [|done].
  destruct (as_tensor a) as [w|]; simpl; [|done].
  destruct (matmul labels w) as [nuv|]; simpl; [|done].
  destruct Hp as [Hp|Hp].
  - by rewrite Hp.
  - by rewrite <- Hp.
Qed.

Lemma train_forward_loss_attrs self self' ue ie position labels :
  self !! "user_value_weights" = self' !! "user_value_weights" ->
  self !! "enable_position_debiasing"
  = self' !! "enable_position_debiasing" ->
  (self !! "enable_position_debiasing" = Some (ABool false)
   \/ self !! "position_bias_net_user_value"
      = self' !! "position_bias_net_user_value") ->
  train_forward_loss self ue ie position labels
  = train_forward_loss self' ue ie position labels.
Proof.
  intros Hw Hf Hp. unfold train_forward_loss.
  rewrite (debiased_net_user_value_attrs self self' position labels Hw Hf Hp).
  unfold getattr. by rewrite Hf.
Qed.

(** C6: called on the model [__init__] builds, [train_forward] raises
    and returns no loss.  On an instance whose two towers return
    embeddings of one width, and that has position debiasing disabled,
    it computes the B x B matrix of scores
    user_embedding . item_embeddings^T, the unreduced softmax
    cross-entropy of each row against its diagonal entry, the weight of
    each example and the mean over the batch; the loss returned is a
    non-negative number when the largest net user value of the batch is
    not 0, and is not a number when it is 0: the weights are then 0/0,
    not values between 0 and 1. *)
Theorem train_forward_without_debiasing
    theta num_items user_id_hash_size DU IU item_id_hash_size DI II
    user_value_weights knn_module
    (self : gmap string attr)
    (user_id : tensor Z) (user_features : tensor R) (user_history : tensor Z)
    (item_id : tensor Z) (item_features : tensor R)
    (user_embedding item_embeddings : tensor R) (position : tensor Z)
    (labels : tensor R) (B D : nat) :
  let built :=
    TwoTowerBaseRetrieval_init theta num_items user_id_hash_size DU IU
      item_id_hash_size DI II user_value_weights knn_module false in
  self !! "user_value_weights"
  = Some (ATensor (tensor_of_list user_value_weights)) ->
  self !! "enable_position_debiasing" = Some (ABool false) ->
  compute_user_embedding self user_id user_features user_history
  = Ok user_embedding ->
  compute_item_embeddings self item_id item_features = Ok item_embeddings ->
  shape user_embedding = [B; D] ->
  shape item_embeddings = [B; D] ->
  shape labels = [B; length user_value_weights] ->
  (1 <= B)%nat ->
  raises (train_forward built user_id user_features user_history
                        item_id item_features position labels)
  /\ exists item_embeddings_t scores loss net_user_value m l,
       transpose item_embeddings = Ok item_embeddings_t
       /\ matmul user_embedding item_embeddings_t = Ok scores
       /\ shape scores = [B; B]
       /\ (forall i j,
             entry scores [i; j]
             = score user_embedding item_embeddings D i j)
       /\ cross_entropy scores (arange B) = Ok loss
       /\ shape loss = [B]
       /\ (forall i, (i < B)%nat ->
             entry loss [i]
             = - (score user_embedding item_embeddings D i i
                  - ln (rsum B (fun j =>
                          exp (score user_embedding item_embeddings D i j)))))
       /\ matmul labels (tensor_of_list user_value_weights)
          = Ok net_user_value
       /\ tensor_max net_user_value = Ok m
       /\ train_forward self user_id user_features user_history
                        item_id item_features position labels
          = Ok l
       /\ l = fmean (map (fun i =>
                            fmul (entry loss [i])
                                 (fdiv (Rmax (entry net_user_value [i]) 0) m))
                         (seq 0 B))
       /\ (m <> 0 -> exists r, l = Finite r /\ 0 <= r)
       /\ (m = 0 -> l = NonFinite).
Proof.
  intros built Hw Hf Eu Ei Hu Hi Hlab HB. split.
  { apply train_forward_raises. }
  rewrite (train_forward_with_embeddings _ _ _ _ _ _ _ _ _ _ Eu Ei).
  rewrite (train_forward_loss_attrs self built)
    by (rewrite ?Hw, ?Hf; first [reflexivity | by left]).
  by apply (train_forward_loss_plain_batch theta num_items user_id_hash_size
              DU IU item_id_hash_size DI II user_value_weights knn_module).
Qed.

Lemma train_forward_without_debiasing_witness :
  train_forward (fitted_model false)
    (vector 0%Z [1; 3]%Z) (matrix 0 2 3 [[1; 2; 3]; [4; 5; 6]])
    (matrix 0%Z 2 3 [[0; 2; 1]; [1; 1; 0]]%Z)
    (vector 0%Z [2; 0]%Z) (matrix 0 2 3 [[1; 2; 3]; [4; 5; 6]])
    (vector 0%Z [0; 0]%Z) (matrix 0 2 2 [[0; 0]; [0; 0]])
  = Ok NonFinite.
Proof.
  eassert (Eu : compute_user_embedding (fitted_model false)
                  (vector 0%Z [1; 3]%Z) (matrix 0 2 3 [[1; 2; 3]; [4; 5; 6]])
                  (matrix 0%Z 2 3 [[0; 2; 1]; [1; 1; 0]]%Z) = Ok _)
    by reflexivity.
  eassert (Ei : compute_item_embeddings (fitted_model false)
                  (vector 0%Z [2; 0]%Z) (matrix 0 2 3 [[1; 2; 3]; [4; 5; 6]])
                = Ok _)
    by reflexivity.
  destruct (train_forward_without_debiasing demo_parameters 5 4 2 3 3 2 3
              [1; 0] no_knn (fitted_model false) _ _ _ _ _ _ _
              (vector 0%Z [0; 0]%Z) (matrix 0 2 2 [[0; 0]; [0; 0]]) 2 2
              eq_refl eq_refl Eu Ei eq_refl eq_refl eq_refl ltac:(lia))
    as (_ & it & scores & loss & nuv & m & l & _ & _ & _ & _ & _ & _ & _
        & En & Em & E & _ & _ & Hzero).
  rewrite E. f_equal. apply Hzero.
  rewrite (net_user_value_matmul (matrix 0 2 2 [[0; 0]; [0; 0]]) [1; 0] 2
             eq_refl) in En.
  injection En as <-.
  unfold tensor_max in Em. simpl in Em. injection Em as <-.
  unfold rsum. simpl. rewrite Rmax_left; lra.
Defined.

(** C8: called on the model [__init__] builds with position debiasing
    enabled, [train_forward] raises and returns no loss.  On an instance
    whose two towers return embeddings of one width, the bias of each
    example is looked up in the position-bias table by its position
    index, the loss is weighted by the net user value minus that bias,
    and the mean squared difference between net user value and bias is
    added to the result.  With a table of zeros the loss is the loss of
    an instance with debiasing disabled, on the same embeddings, plus
    the mean of the squared net user values. *)
Theorem position_debiasing_adds_squared_error
    theta num_items user_id_hash_size DU IU item_id_hash_size DI II
    user_value_weights knn_module
    (plain debiased : gmap string attr)
    (user_id : tensor Z) (user_features : tensor R) (user_history : tensor Z)
    (item_id : tensor Z) (item_features : tensor R)
    (user_embedding item_embeddings : tensor R) (position : tensor Z)
    (labels : tensor R) (B D : nat) :
  let built :=
    TwoTowerBaseRetrieval_init theta num_items user_id_hash_size DU IU
      item_id_hash_size DI II user_value_weights knn_module true in
  debiased !! "user_value_weights"
  = Some (ATensor (tensor_of_list user_value_weights)) ->
  debiased !! "enable_position_debiasing" = Some (ABool true) ->
  debiased !! "position_bias_net_user_value"
  = Some (AEmbedding {| num_embeddings := 100; embedding_dim := 1;
                        weight := position_bias_weight theta |}) ->
  plain !! "user_value_weights"
  = Some (ATensor (tensor_of_list user_value_weights)) ->
  plain !! "enable_position_debiasing" = Some (ABool false) ->
  compute_user_embedding debiased user_id user_features user_history
  = Ok user_embedding ->
  compute_item_embeddings debiased item_id item_features
  = Ok item_embeddings ->
  compute_user_embedding plain user_id user_features user_history
  = Ok user_embedding ->
  compute_item_embeddings plain item_id item_features = Ok item_embeddings ->
  shape user_embedding = [B; D] ->
  shape item_embeddings = [B; D] ->
  shape labels = [B; length user_value_weights] ->
  shape position = [B] ->
  ids_in_range 100 position ->
  (1 <= B)%nat ->
  raises (train_forward built user_id user_features user_history
                        item_id item_features position labels)
  /\ exists loss nuv bias nuv',
       softmax_loss user_embedding item_embeddings = Ok loss
       /\ matmul labels (tensor_of_list user_value_weights) = Ok nuv
       /\ shape bias = [B]
       /\ (forall i, entry bias [i]
                     = position_bias_weight theta
                         (Z.to_nat (entry position [i])) 0)
       /\ shape nuv' = [B]
       /\ (forall i, (i < B)%nat ->
                     entry nuv' [i] = entry nuv [i] - entry bias [i])
       /\ train_forward debiased user_id user_features user_history
                        item_id item_features position labels
          = (let! l := weighted_mean_loss loss nuv' in
             Ok (fadd l (Finite
                   (rsum B (fun i => (entry nuv [i] - entry bias [i])
                                     * (entry nuv [i] - entry bias [i]))
                    / INR B))))
       /\ train_forward plain user_id user_features user_history
                        item_id item_features position labels
          = weighted_mean_loss loss nuv
       /\ ((forall p c, position_bias_weight theta p c = 0) ->
           exists l,
             train_forward plain user_id user_features user_history
                           item_id item_features position labels = Ok l
             /\ train_forward debiased user_id user_features user_history
                              item_id item_features position labels
                = Ok (fadd l (Finite
                        (rsum B (fun i => entry nuv [i] * entry nuv [i])
                         / INR B)))).
Proof.
  intros built Hw Hf Hpb Hw' Hf' Eu Ei Eu' Ei' Hu Hi Hlab Hp Hr HB. split.
  { apply train_forward_raises. }
  rewrite (train_forward_with_embeddings debiased _ _ _ _ _ _ _ _ _ Eu Ei).
  rewrite (train_forward_with_embeddings plain _ _ _ _ _ _ _ _ _ Eu' Ei').
  rewrite (train_forward_loss_attrs debiased built)
    by (rewrite ?Hw, ?Hf, ?Hpb; first [reflexivity | by right]).
  rewrite (train_forward_loss_attrs plain
             (TwoTowerBaseRetrieval_init theta num_items user_id_hash_size
                DU IU item_id_hash_size DI II user_value_weights knn_module
                false))
    by (rewrite ?Hw', ?Hf'; first [reflexivity | by left]).
  by apply (train_forward_loss_debiased_batch theta num_items
              user_id_hash_size DU IU item_id_hash_size DI II
              user_value_weights knn_module user_embedding item_embeddings
              position labels B D).
Qed.

Lemma position_debiasing_adds_squared_error_witness :
  exists l,
    train_forward (fitted_model false)
      (vector 0%Z [1; 3]%Z) (matrix 0 2 3 [[1; 2; 3]; [4; 5; 6]])
      (matrix 0%Z 2 3 [[0; 2; 1]; [1; 1; 0]]%Z)
      (vector 0%Z [2; 0]%Z) (matrix 0 2 3 [[1; 2; 3]; [4; 5; 6]])
      (vector 0%Z [3; 7]%Z) (matrix 0 2 2 [[2; 0]; [1; 0]])
    = Ok l
    /\ train_forward (fitted_model true)
         (vector 0%Z [1; 3]%Z) (matrix 0 2 3 [[1; 2; 3]; [4; 5; 6]])
         (matrix 0%Z 2 3 [[0; 2; 1]; [1; 1; 0]]%Z)
         (vector 0%Z [2; 0]%Z) (matrix 0 2 3 [[1; 2; 3]; [4; 5; 6]])
         (vector 0%Z [3; 7]%Z) (matrix 0 2 2 [[2; 0]; [1; 0]])
       = Ok (fadd l (Finite ((2 * 2 + 1 * 1) / 2))).
Proof.
  eassert (Eu : compute_user_embedding (fitted_model true)
                  (vector 0%Z [1; 3]%Z) (matrix 0 2 3 [[1; 2; 3]; [4; 5; 6]])
                  (matrix 0%Z 2 3 [[0; 2; 1]; [1; 1; 0]]%Z) = Ok _)
    by reflexivity.
  eassert (Ei : compute_item_embeddings (fitted_model true)
                  (vector 0%Z [2; 0]%Z) (matrix 0 2 3 [[1; 2; 3]; [4; 5; 6]])
                = Ok _)
    by reflexivity.
  destruct (position_debiasing_adds_squared_error demo_parameters 5 4 2 3 3
              2 3 [1; 0] no_knn (fitted_model false) (fitted_model true)
              _ _ _ _ _ _ _
              (vector 0%Z [3; 7]%Z) (matrix 0 2 2 [[2; 0]; [1; 0]]) 2 2
              eq_refl eq_refl eq_refl eq_refl eq_refl Eu Ei eq_refl eq_refl
              eq_refl eq_refl eq_refl eq_refl
              (ids_in_range_vector 100 [3; 7]%Z eq_refl) ltac:(lia))
    as (_ & loss & nuv & bias & nuv' & _ & En & _ & _ & _ & _ & _ & _ & H).
  destruct (H (fun _ _ => eq_refl)) as (l & E1 & E2).
  exists l. split; [exact E1|]. rewrite E2.
  rewrite (net_user_value_matmul (matrix 0 2 2 [[2; 0]; [1; 0]]) [1; 0] 2
             eq_refl) in En.
  injection En as <-. do 3 f_equal. unfold rsum. simpl. lra.
Defined.

(** * Further properties *)

(** ** Argument binding *)

Lemma fill_positional_bind params args :
  fill_positional params args = bind_positional params args.
Proof.
  revert args. induction params as [|p params IH]; intros [|a args]; simpl;
    by rewrite ?IH.
Qed.

Lemma fill_keywords_bind params kwargs env :
  fill_keywords params kwargs env = bind_keywords params kwargs env.
Proof.
  revert env. induction kwargs as [|[k v] kwargs IH]; intros env; simpl;
    [done|]. case_bool_decide; [|done]. destruct (env !! k); [done|]. apply IH.
Qed.

(** With no defaults the binding with defaults is the binding of
    [bind_args]. *)
Lemma bind_call_no_defaults params args kwargs :
  bind_call params [] args kwargs = bind_args params args kwargs.
Proof.
  unfold bind_call, bind_args.
  rewrite fill_keywords_bind, fill_positional_bind.
  destruct (bind_keywords _ _ _) as [env|e]; simpl; [|done].
  destruct (length params <? length args)%nat; [done|].
  by rewrite (right_id_L ∅ (∪) env).
Qed.

(** X1: constructing a [TwoTowerPlusLightRanker] fails for every
    argument: [super().__init__] receives seven positional arguments for
    the nine required parameters of [TwoTowerBaseRetrieval.__init__], so
    [user_value_weights] (and [knn_module]) stay unbound and binding
    raises TypeError. *)
Theorem TwoTowerPlusLightRanker_init_type_error theta
    user_id_hash_size user_id_embedding_dim user_features_size
    item_id_hash_size item_id_embedding_dim item_features_size
    user_value_weights knn_module :
  TwoTowerPlusLightRanker_init theta
    user_id_hash_size user_id_embedding_dim user_features_size
    item_id_hash_size item_id_embedding_dim item_features_size
    user_value_weights knn_module
  = Raise (TypeError (MissingArgument "user_value_weights")).
Proof. reflexivity. Qed.

Lemma param_size_of_nat (env : gmap string init_value) p (n : nat) :
  env !! p = Some (IInt (Z.of_nat n)) -> param_size env p = Ok n.
Proof.
  intros E. unfold param_size, param_int. rewrite E. simpl.
  destruct (Z.ltb_spec (Z.of_nat n) 0); [lia|]. by rewrite Nat2Z.id.
Qed.

(** X2: a call of [TwoTowerBaseRetrieval.__init__] with its nine
    required arguments in order and no flag builds the model with
    position debiasing disabled, which has no position-bias table. *)
Theorem TwoTowerBaseRetrieval_init_default_flag theta (self : gmap string attr)
    num_items (user_id_hash_size DU IU item_id_hash_size DI II : nat)
    user_value_weights knn_module :
  TwoTowerBaseRetrieval_init_call theta
    [IInstance self; IInt num_items;
     IInt (Z.of_nat user_id_hash_size); IInt (Z.of_nat DU);
     IInt (Z.of_nat IU); IInt (Z.of_nat item_id_hash_size);
     IInt (Z.of_nat DI); IInt (Z.of_nat II);
     IFloats user_value_weights; IModule knn_module] []
  = Ok (TwoTowerBaseRetrieval_init theta num_items user_id_hash_size
          DU IU item_id_hash_size DI II user_value_weights knn_module false)
  /\ getattr TwoTowerBaseRetrieval
       (TwoTowerBaseRetrieval_init theta num_items user_id_hash_size
          DU IU item_id_hash_size DI II user_value_weights knn_module false)
       "position_bias_net_user_value"
     = Raise (AttributeError "position_bias_net_user_value").
Proof.
  split; [|reflexivity].
  unfold TwoTowerBaseRetrieval_init_call.
  match goal with
  | |- context [bind_call ?p ?d ?a ?k] =>
      assert (exists env, bind_call p d a k = Ok env
        /\ env !! "num_items" = Some (IInt num_items)
        /\ env !! "user_value_weights" = Some (IFloats user_value_weights)
        /\ env !! "knn_module" = Some (IModule knn_module)
        /\ env !! "enable_position_debiasing" = Some (IBool false)
        /\ env !! "user_id_hash_size"
           = Some (IInt (Z.of_nat user_id_hash_size))
        /\ env !! "user_id_embedding_dim" = Some (IInt (Z.of_nat DU))
        /\ env !! "item_id_hash_size"
           = Some (IInt (Z.of_nat item_id_hash_size))
        /\ env !! "item_id_embedding_dim" = Some (IInt (Z.of_nat DI))
        /\ env !! "user_features_size" = Some (IInt (Z.of_nat IU))
        /\ env !! "item_features_size" = Some (IInt (Z.of_nat II)))
        as (env & -> & E1 & E2 & E3 & E4 & E5 & E6 & E7 & E8 & E9 & E10)
        by (eexists; split; [reflexivity|repeat split; reflexivity])
  end.
  simpl. unfold param_int, param_floats, param_module, param_bool.
  rewrite E1, E2, E3, E4. simpl.
  rewrite (param_size_of_nat _ _ _ E5). simpl.
  rewrite (param_size_of_nat _ _ _ E6). simpl.
  rewrite (param_size_of_nat _ _ _ E7). simpl.
  rewrite (param_size_of_nat _ _ _ E8). simpl.
  rewrite (param_size_of_nat _ _ _ E9). simpl.
  by rewrite (param_size_of_nat _ _ _ E10).
Qed.

(** ** The positional table, further *)

Lemma angle_row_0 c d : angle 0 c d = 0.
Proof. unfold angle. simpl. unfold Rdiv. apply Rmult_0_l. Qed.

Lemma angle_column_0 pos d : angle pos 0 d = INR pos.
Proof.
  unfold angle. simpl. unfold Rdiv at 2. rewrite Rmult_0_l.
  rewrite Rpower_O by lra. unfold Rdiv. rewrite Rinv_1. apply Rmult_1_r.
Qed.

(** X3: the row of position 0 of the table [positional_encoding] returns
    is 0, 1, 0, 1, ...: 0 in the even columns and 1 in the odd ones. *)
Theorem positional_encoding_first_row (seq_len d_model : nat) :
  exists PE,
    positional_encoding seq_len d_model = Ok PE
    /\ forall c, (0 < seq_len)%nat -> (c < d_model)%nat ->
         entry PE [0%nat; c] = if Nat.even c then 0 else 1.
Proof.
  destruct (positional_encoding_spec seq_len d_model) as (PE & E & _ & H).
  exists PE. split; [exact E|]. intros c Hs Hc.
  rewrite H by done. unfold pe_value. rewrite angle_row_0.
  destruct (Nat.even c); [apply sin_0 | apply cos_0].
Qed.

Lemma positional_encoding_first_row_witness :
  exists PE,
    positional_encoding 2 3 = Ok PE
    /\ entry PE [0; 0]%nat = 0 /\ entry PE [0; 1]%nat = 1
    /\ entry PE [0; 2]%nat = 0.
Proof.
  destruct (positional_encoding_first_row 2 3) as (PE & E & H).
  exists PE. split; [exact E|].
  split; [|split]; [apply (H 0%nat)|apply (H 1%nat)|apply (H 2%nat)]; lia.
Defined.

(** X4: every entry of the table lies between -1 and 1. *)
Theorem positional_encoding_bounded (seq_len d_model : nat) :
  exists PE,
    positional_encoding seq_len d_model = Ok PE
    /\ forall pos c, (pos < seq_len)%nat -> (c < d_model)%nat ->
         -1 <= entry PE [pos; c] <= 1.
Proof.
  destruct (positional_encoding_spec seq_len d_model) as (PE & E & _ & H).
  exists PE. split; [exact E|]. intros pos c Hp Hc.
  rewrite H by done. unfold pe_value.
  destruct (Nat.even c); [apply SIN_bound | apply COS_bound].
Qed.

Lemma positional_encoding_bounded_witness :
  exists PE,
    positional_encoding 3 4 = Ok PE /\ -1 <= entry PE [2; 3]%nat <= 1.
Proof.
  destruct (positional_encoding_bounded 3 4) as (PE & E & H).
  exists PE. split; [exact E|]. apply H; lia.
Defined.

(** X5: column 0 of the table holds sin(pos): there the divisor
    10000 ** 0 is 1. *)
Theorem positional_encoding_first_column (seq_len d_model : nat) :
  exists PE,
    positional_encoding seq_len d_model = Ok PE
    /\ forall pos, (pos < seq_len)%nat -> (0 < d_model)%nat ->
         entry PE [pos; 0%nat] = sin (INR pos).
Proof.
  destruct (positional_encoding_spec seq_len d_model) as (PE & E & _ & H).
  exists PE. split; [exact E|]. intros pos Hp Hd.
  rewrite H by done. unfold pe_value. simpl. by rewrite angle_column_0.
Qed.

Lemma positional_encoding_first_column_witness :
  exists PE,
    positional_encoding 3 2 = Ok PE /\ entry PE [2; 0]%nat = sin (INR 2).
Proof.
  destruct (positional_encoding_first_column 3 2) as (PE & E & H).
  exists PE. split; [exact E|]. apply H; lia.
Defined.

(** X6: called as a plain function with two non-negative integers,
    [positional_encoding] returns a table of that many rows and columns;
    called with one argument it raises TypeError for the missing
    [d_model]; and whenever one of the two sizes is negative
    [torch.zeros] refuses it and the call raises RuntimeError. *)
Theorem positional_encoding_plain_call (h d : nat) (z : Z) :
  (exists PE,
     call_function positional_encoding_def
       [VInt (Z.of_nat h); VInt (Z.of_nat d)] [] = Ok (VTensor PE)
     /\ shape PE = [h; d])
  /\ call_function positional_encoding_def [VInt z] []
     = Raise (TypeError (MissingArgument "d_model"))
  /\ forall seq_len d_model : Z,
       (seq_len < 0 \/ d_model < 0)%Z ->
       call_function positional_encoding_def
         [VInt seq_len; VInt d_model] []
       = Raise (RuntimeError SizeMismatch).
Proof.
  split; [|split; [reflexivity|]].
  - destruct (positional_encoding_spec h d) as (PE & E & Hs & _).
    exists PE. split; [|done].
    rewrite positional_encoding_def_plain_call, E. done.
  - intros seq_len d_model Hneg. unfold call_function.
    assert (bind_args (fparams positional_encoding_def)
              [VInt seq_len; VInt d_model] []
            = Ok (<["seq_len" := VInt seq_len]>
                    (<["d_model" := VInt d_model]> ∅))) as -> by reflexivity.
    simpl. unfold arg_int.
    rewrite lookup_insert_eq. simpl.
    rewrite lookup_insert_ne, lookup_insert_eq by done. simpl.
    destruct (Z.ltb_spec seq_len 0); [done|].
    destruct (Z.ltb_spec d_model 0); [done|]. lia.
Qed.

Lemma positional_encoding_plain_call_witness :
  call_function positional_encoding_def [VInt (-3); VInt 4] []
  = Raise (RuntimeError SizeMismatch)
  /\ call_function positional_encoding_def [VInt 3; VInt (-4)] []
     = Raise (RuntimeError SizeMismatch).
Proof.
  split.
  - apply (proj2 (proj2 (positional_encoding_plain_call 0 0 0))). left. lia.
  - apply (proj2 (proj2 (positional_encoding_plain_call 0 0 0))). right. lia.
Defined.

(** ** The history encoder, further *)

Lemma rsum_constant n (f : nat -> R) c :
  (forall i, (i < n)%nat -> f i = c) -> rsum n f = INR n * c.
Proof.
  intros H. unfold rsum.
  assert (G : forall a m, (forall i, (a <= i < a + m)%nat -> f i = c) ->
            fold_right Rplus 0 (map f (seq a m)) = INR m * c).
  { intros a m. revert a. induction m as [|m IH]; intros a Hf.
    - simpl. lra.
    - rewrite S_INR. cbn [seq map fold_right].
      rewrite IH by (intros i Hi; apply Hf; lia).
      rewrite Hf by lia. lra. }
  apply G. intros i Hi. apply H. lia.
Qed.

(** X7: for a width DI other than 1 and at least one position,
    [forward] returns a (B, 2, DI) summary: with [out] the output of the
    attention on the history plus the positional table (query, key and
    value alike), row 0 is [out] at position 0 and row 1 is the mean of
    [out] over the H positions. *)
Theorem forward_returns_first_and_mean
    (self : gmap string attr) (pe : tensor R)
    (mha : tensor R -> tensor R -> tensor R -> result (tensor R * tensor R))
    (B H DI : nat) (user_history : tensor R) :
  self !! "positional_embeddings" = Some (ATensor pe) ->
  self !! "multihead_attn" = Some (AAttention mha) ->
  shape pe = [H; DI] ->
  shape user_history = [B; H; DI] ->
  (forall x, shape x = [H; B; DI] ->
             exists out w, mha x x x = Ok (out, w)
                           /\ shape out = [H; B; DI]) ->
  DI <> 1%nat -> (1 <= H)%nat ->
  let x := enriched pe user_history B H DI in
  (forall h b j, (h < H)%nat -> (b < B)%nat -> (j < DI)%nat ->
     entry x [h; b; j] = entry user_history [b; h; j] + entry pe [h; j])
  /\ exists out w y,
       mha x x x = Ok (out, w)
       /\ UserHistoryEncoder_forward self user_history = Ok y
       /\ shape y = [B; 2%nat; DI]
       /\ forall b j,
            entry y [b; 0%nat; j] = entry out [0%nat; b; j]
            /\ entry y [b; 1%nat; j]
               = rsum H (fun h => entry out [h; b; j]) / INR H.
Proof.
  intros Hpe Hmha Hs Hx Hm HDI HH x. split.
  - intros h b j. by apply enriched_entry.
  - destruct (forward_summary self pe mha B H DI user_history
                Hpe Hmha Hs Hx Hm HDI HH)
      as (out & w & y & E & _ & Ey & Hy & Hrows).
    by exists out, w, y.
Qed.

Lemma forward_returns_first_and_mean_witness :
  exists y,
    UserHistoryEncoder_forward (demo_encoder (zeros [2; 2]%nat))
      (zeros [1; 2; 2]%nat) = Ok y
    /\ shape y = [1; 2; 2]%nat.
Proof.
  destruct (forward_returns_first_and_mean
              (demo_encoder (zeros [2; 2]%nat)) (zeros [2; 2]%nat)
              (fun q k v => Ok (v, zeros [1; 1; 1]%nat)) 1 2 2
              (zeros [1; 2; 2]%nat) eq_refl eq_refl eq_refl eq_refl)
    as (_ & out & w & y & _ & E & Hs & _).
  - intros x Hx. exists x, (zeros [1; 1; 1]%nat). by split.
  - lia.
  - lia.
  - exists y. by split.
Defined.

(** X8: for a user whose attended vectors are the same at every
    position, the two rows of the summary of that user are equal; the
    other users of the batch are not constrained. *)
Theorem forward_rows_equal_on_constant_attention
    (self : gmap string attr) (pe : tensor R)
    (mha : tensor R -> tensor R -> tensor R -> result (tensor R * tensor R))
    (B H DI : nat) (user_history : tensor R) :
  self !! "positional_embeddings" = Some (ATensor pe) ->
  self !! "multihead_attn" = Some (AAttention mha) ->
  shape pe = [H; DI] ->
  shape user_history = [B; H; DI] ->
  (forall x, shape x = [H; B; DI] ->
             exists out w, mha x x x = Ok (out, w)
                           /\ shape out = [H; B; DI]) ->
  DI <> 1%nat -> (1 <= H)%nat ->
  let x := enriched pe user_history B H DI in
  exists out w y,
    mha x x x = Ok (out, w)
    /\ UserHistoryEncoder_forward self user_history = Ok y
    /\ forall b,
         (forall h j, (h < H)%nat ->
            entry out [h; b; j] = entry out [0%nat; b; j]) ->
         forall j, entry y [b; 1%nat; j] = entry y [b; 0%nat; j].
Proof.
  intros Hpe Hmha Hs Hx Hm HDI HH x.
  destruct (forward_summary self pe mha B H DI user_history Hpe Hmha Hs Hx
              Hm HDI HH)
    as (out & w & y & E & _ & Ey & _ & Hrows).
  exists out, w, y. split; [exact E|]. split; [exact Ey|].
  intros b Hconst j.
  destruct (Hrows b j) as [-> ->].
  rewrite (rsum_constant H _ (entry out [0%nat; b; j]))
    by (intros h Hh; by apply Hconst).
  field. apply not_0_INR. lia.
Qed.

Lemma forward_rows_equal_on_constant_attention_witness :
  exists y,
    UserHistoryEncoder_forward
      (demo_encoder (matrix 0 2 2 [[0; 1]; [1; 0]]))
      (Tensor [2; 2; 2]%nat
         (fun ix => match ix with
                    | [b; h; j] =>
                        if (b =? 0)%nat
                        then (if (h =? j)%nat then 5 else 4)
                        else INR h + INR j
                    | _ => 0
                    end))
    = Ok y
    /\ entry y [0; 1; 0]%nat = entry y [0; 0; 0]%nat
    /\ entry y [0; 1; 1]%nat = entry y [0; 0; 1]%nat.
Proof.
  destruct (forward_rows_equal_on_constant_attention
              (demo_encoder (matrix 0 2 2 [[0; 1]; [1; 0]]))
              (matrix 0 2 2 [[0; 1]; [1; 0]])
              (fun q k v => Ok (v, zeros [1; 1; 1]%nat)) 2 2 2
              (Tensor [2; 2; 2]%nat
                 (fun ix => match ix with
                            | [b; h; j] =>
                                if (b =? 0)%nat
                                then (if (h =? j)%nat then 5 else 4)
                                else INR h + INR j
                            | _ => 0
                            end))
              eq_refl eq_refl eq_refl eq_refl)
    as (out & w & y & E & Ey & H).
  - intros x Hx. by exists x, (zeros [1; 1; 1]%nat).
  - lia.
  - lia.
  - injection E as <- <-.
    exists y. split; [exact Ey|].
    assert (Hc : forall j, entry y [0; 1; j]%nat = entry y [0; 0; j]%nat).
    { apply H. intros h j Hh.
      destruct h as [|[|h]]; [reflexivity| |lia].
      destruct j as [|[|j]]; simpl; lra. }
    split; apply Hc.
Defined.

(** X9: a history of no position makes [forward] raise: if the
    attention returns at all (an output of the shape of its input), then
    [attn_output[:, 0, :]] has no position 0 to take and raises
    IndexError. *)
Theorem forward_empty_history
    (self : gmap string attr) (pe : tensor R)
    (mha : tensor R -> tensor R -> tensor R -> result (tensor R * tensor R))
    (B DI : nat) (user_history : tensor R) :
  self !! "positional_embeddings" = Some (ATensor pe) ->
  self !! "multihead_attn" = Some (AAttention mha) ->
  shape pe = [0%nat; DI] ->
  shape user_history = [B; 0%nat; DI] ->
  (forall x out w, mha x x x = Ok (out, w) -> shape out = shape x) ->
  raises (UserHistoryEncoder_forward self user_history)
  /\ (returns (mha (enriched pe user_history B 0 DI)
                   (enriched pe user_history B 0 DI)
                   (enriched pe user_history B 0 DI)) ->
      UserHistoryEncoder_forward self user_history = Raise IndexError).
Proof.
  intros Hpe Hmha Hs Hx Hm.
  unfold UserHistoryEncoder_forward.
  rewrite (getattr_lookup _ _ _ _ Hpe). simpl.
  unfold map2_broadcast. simpl. rewrite Hx, Hs, broadcast_batch. simpl.
  rewrite (getattr_lookup _ _ _ _ Hmha). simpl.
  change (mha _ _ _)
    with (mha (enriched pe user_history B 0 DI)
              (enriched pe user_history B 0 DI)
              (enriched pe user_history B 0 DI)).
  destruct (mha _ _ _) as [[out w]|e] eqn:E; simpl.
  - apply Hm in E. simpl in E.
    unfold permute102. rewrite E. simpl.
    unfold index_all_0_all, select. simpl.
    split; [apply raises_Raise|done].
  - split; [apply raises_Raise|]. intros [a Ha]. discriminate.
Qed.

Lemma forward_empty_history_witness :
  UserHistoryEncoder_forward (demo_encoder (zeros [0; 2]%nat))
    (zeros [1; 0; 2]%nat) = Raise IndexError.
Proof.
  apply (forward_empty_history _ (zeros [0; 2]%nat)
           (fun q k v => Ok (v, zeros [1; 1; 1]%nat)) 1 2);
    [reflexivity | reflexivity | reflexivity | reflexivity | | ].
  - intros x out w [= <- _]. reflexivity.
  - by eexists.
Defined.

(** ** The item tower, further *)

Lemma cat_pair_rank3 (a b : tensor R) n p q r :
  shape a = [n; p; r] -> shape b = [n; q; r] ->
  cat [a; b] 1 = Ok (Tensor [n; (p + q)%nat; r] (cat_entry [a; b] 1 a)).
Proof.
  intros Ea Eb. unfold cat. simpl.
  assert (legacy_empty a = false) as ->.
  { unfold legacy_empty, shape_eqb. rewrite Ea. by case_bool_decide. }
  assert (legacy_empty b = false) as ->.
  { unfold legacy_empty, shape_eqb. rewrite Eb. by case_bool_decide. }
  simpl. unfold rank, same_off_axis, shape_eqb. rewrite Ea, Eb. simpl.
  rewrite !bool_decide_eq_true_2 by done. simpl. by rewrite Nat.add_0_r.
Qed.

(** X10: for item ids of shape (B), all in the table, and item features
    of shape (B', II), [compute_item_embeddings] returns exactly when
    DI = 0 and B = B': with a positive width the final layer never
    accepts the concatenation. *)
Theorem compute_item_embeddings_returns_iff
    theta num_items user_id_hash_size DU IU item_id_hash_size DI II
    user_value_weights knn_module debias
    (item_id : tensor Z) (item_features : tensor R) (B B' : nat) :
  shape item_id = [B] ->
  ids_in_range item_id_hash_size item_id ->
  shape item_features = [B'; II] ->
  returns (compute_item_embeddings
             (TwoTowerBaseRetrieval_init theta num_items user_id_hash_size
                DU IU item_id_hash_size DI II user_value_weights knn_module
                debias)
             item_id item_features)
  <-> DI = 0%nat /\ B = B'.
Proof.
  intros Hid Hrange Hfeat. unfold compute_item_embeddings.
  rewrite init_item_id_embedding_arch. simpl.
  rewrite embedding_in_range by done. simpl.
  rewrite init_item_features_arch. simpl.
  unfold linear at 1. rewrite Hfeat. simpl.
  rewrite Nat.eqb_refl. simpl.
  rewrite (cat_pair_matrices _ _ B DI B' DI) by (simpl; by rewrite ?Hid).
  destruct (Nat.eqb_spec B B') as [->|HB]; simpl.
  - rewrite init_item_tower_arch. simpl. unfold linear. simpl.
    destruct (Nat.eqb_spec (DI + DI) DI) as [E|E]; simpl.
    + split; [intros _; split; [lia|done] | intros _; by eexists].
    + split; [intros [y Hy]; discriminate | intros [? _]; lia].
  - split; [intros [y Hy]; discriminate | intros [_ ?]; done].
Qed.

Lemma compute_item_embeddings_returns_iff_witness :
  returns (compute_item_embeddings
             (TwoTowerBaseRetrieval_init zero_parameters 5 4 2 3 3 0 3
                [1; 0] no_knn false)
             (vector 0%Z [2; 0]%Z) (matrix 0 2 3 [[1; 2; 3]; [4; 5; 6]])).
Proof.
  apply (compute_item_embeddings_returns_iff zero_parameters 5 4 2 3 3 0 3
           [1; 0] no_knn false _ _ 2 2); try reflexivity.
  - by apply ids_in_range_vector.
  - by split.
Defined.

(** X11: an item id outside the item embedding table (negative, or at
    least [item_id_hash_size]) makes [compute_item_embeddings] raise
    IndexError, whatever the features. *)
Theorem compute_item_embeddings_index_error
    theta num_items user_id_hash_size DU IU item_id_hash_size DI II
    user_value_weights knn_module debias
    (item_id : tensor Z) (item_features : tensor R) :
  ~ ids_in_range item_id_hash_size item_id ->
  compute_item_embeddings
    (TwoTowerBaseRetrieval_init theta num_items user_id_hash_size
       DU IU item_id_hash_size DI II user_value_weights knn_module debias)
    item_id item_features
  = Raise IndexError.
Proof.
  intros H. unfold compute_item_embeddings.
  rewrite init_item_id_embedding_arch. simpl.
  by rewrite embedding_out_of_range.
Qed.

Lemma compute_item_embeddings_index_error_witness :
  compute_item_embeddings demo_model (vector 0%Z [2; 3]%Z)
    (matrix 0 2 3 [[1; 2; 3]; [4; 5; 6]])
  = Raise IndexError.
Proof.
  apply (compute_item_embeddings_index_error zero_parameters 5 4 2 3 3 2 3
           [1; 0] no_knn false).
  intros H. apply forallb_in_range in H. discriminate H.
Defined.

(** X12: given item ids of shape (B, K) and features of shape
    (B, K, II), one axis more than documented, [compute_item_embeddings]
    raises nothing: the concatenation along axis 1 doubles K, the last
    axis keeps width DI, and a (B, 2K, DI) tensor is returned. *)
Theorem compute_item_embeddings_accepts_extra_axis
    theta num_items user_id_hash_size DU IU item_id_hash_size DI II
    user_value_weights knn_module debias
    (item_id : tensor Z) (item_features : tensor R) (B K : nat) :
  shape item_id = [B; K] ->
  ids_in_range item_id_hash_size item_id ->
  shape item_features = [B; K; II] ->
  exists y,
    compute_item_embeddings
      (TwoTowerBaseRetrieval_init theta num_items user_id_hash_size
         DU IU item_id_hash_size DI II user_value_weights knn_module debias)
      item_id item_features
    = Ok y
    /\ shape y = [B; (K + K)%nat; DI].
Proof.
  intros Hid Hrange Hfeat. unfold compute_item_embeddings.
  rewrite init_item_id_embedding_arch. simpl.
  rewrite embedding_in_range by done. simpl.
  rewrite init_item_features_arch. simpl.
  unfold linear at 1. rewrite Hfeat. simpl.
  rewrite Nat.eqb_refl. simpl.
  rewrite (cat_pair_rank3 _ _ B K K DI) by (simpl; by rewrite ?Hid).
  simpl. rewrite init_item_tower_arch. simpl.
  unfold linear. simpl. rewrite Nat.eqb_refl.
  eexists. split; reflexivity.
Qed.

Lemma compute_item_embeddings_accepts_extra_axis_witness :
  exists y,
    compute_item_embeddings demo_model (matrix 0%Z 1 2 [[2; 0]]%Z)
      (Tensor [1; 2; 3]%nat (fun _ => 1))
    = Ok y
    /\ shape y = [1; 4; 2]%nat.
Proof.
  apply (compute_item_embeddings_accepts_extra_axis zero_parameters 5 4 2 3 3
           2 3 [1; 0] no_knn false _ _ 1 2); try reflexivity.
  apply forallb_in_range. reflexivity.
Defined.

(** ** The softmax loss, further *)

Lemma arange_in_range_iff n n' :
  forallb (in_range n') (flat (arange n)) = true <-> (n <= n')%nat.
Proof.
  rewrite forallb_in_range. unfold ids_in_range.
  change (shape (arange n)) with [n]. rewrite indices_vector. split.
  - intros H. destruct n as [|n]; [lia|].
    assert (In [n] (map (fun i => [i]) (seq 0 (S n)))) as Hin
      by (apply (in_map (fun i => [i])), in_seq; lia).
    specialize (H [n] Hin). simpl in H. lia.
  - intros Hle ix Hix. apply in_map_iff in Hix as (i & <- & Hi).
    apply in_seq in Hi. simpl. lia.
Qed.

(** X13: user and item embeddings of different widths make the softmax
    loss raise: the product with the transposed item embeddings does not
    exist. *)
Theorem softmax_loss_width_mismatch (user_embedding item_embeddings : tensor R)
    (B D B' D' : nat) :
  shape user_embedding = [B; D] ->
  shape item_embeddings = [B'; D'] ->
  D <> D' ->
  softmax_loss user_embedding item_embeddings
  = Raise (RuntimeError SizeMismatch).
Proof.
  intros Eu Ei HD. unfold softmax_loss, transpose. rewrite Ei. simpl.
  unfold matmul. rewrite Eu. simpl.
  by destruct (Nat.eqb_spec D D').
Qed.

Lemma softmax_loss_width_mismatch_witness :
  softmax_loss (matrix 0 2 2 [[1; 0]; [0; 1]])
               (matrix 0 2 3 [[1; 0; 0]; [0; 1; 0]])
  = Raise (RuntimeError SizeMismatch).
Proof.
  apply (softmax_loss_width_mismatch _ _ 2 2 2 3); [reflexivity..|lia].
Defined.

(** X14: with B users and B' items of one width the softmax loss is
    returned, one value per user, when B <= B'; with more users than
    items the diagonal target of user B' is no item of the batch and the
    loss raises IndexError. *)
Theorem softmax_loss_batch_sizes (user_embedding item_embeddings : tensor R)
    (B B' D : nat) :
  shape user_embedding = [B; D] ->
  shape item_embeddings = [B'; D] ->
  ((B <= B')%nat ->
   exists loss, softmax_loss user_embedding item_embeddings = Ok loss
                /\ shape loss = [B])
  /\ ((B' < B)%nat ->
      softmax_loss user_embedding item_embeddings = Raise IndexError).
Proof.
  intros Eu Ei. unfold softmax_loss, transpose. rewrite Ei. simpl.
  unfold matmul. rewrite Eu. simpl. rewrite Nat.eqb_refl. simpl.
  unfold cross_entropy. simpl. unfold shape_eqb.
  rewrite bool_decide_eq_true_2 by done. simpl.
  destruct (forallb (in_range B') (flat (arange B))) eqn:E; simpl.
  - apply arange_in_range_iff in E. split; [|lia].
    intros _. eexists. split; reflexivity.
  - split; [|done]. intros Hle. apply arange_in_range_iff in Hle.
    congruence.
Qed.

Lemma softmax_loss_batch_sizes_witness :
  (exists loss,
     softmax_loss (matrix 0 1 2 [[1; 0]]) (matrix 0 2 2 [[1; 0]; [0; 1]])
     = Ok loss /\ shape loss = [1%nat])
  /\ softmax_loss (matrix 0 2 2 [[1; 0]; [0; 1]]) (matrix 0 1 2 [[1; 0]])
     = Raise IndexError.
Proof.
  split.
  - apply (proj1 (softmax_loss_batch_sizes (matrix 0 1 2 [[1; 0]])
                    (matrix 0 2 2 [[1; 0]; [0; 1]]) 1 2 2 eq_refl eq_refl)).
    lia.
  - apply (proj2 (softmax_loss_batch_sizes (matrix 0 2 2 [[1; 0]; [0; 1]])
                    (matrix 0 1 2 [[1; 0]]) 2 1 2 eq_refl eq_refl)).
    lia.
Defined.

(** ** The weights, further *)

Lemma weighted_mean_loss_finite loss nuv n m (g : nat -> R) :
  shape loss = [n] -> shape nuv = [n] -> (1 <= n)%nat ->
  tensor_max nuv = Ok m -> m <> 0 ->
  (forall i, (i < n)%nat ->
             entry loss [i] * (Rmax (entry nuv [i]) 0 / m) = g i) ->
  weighted_mean_loss loss nuv = Ok (Finite (rsum n g / INR n)).
Proof.
  intros El En Hn Em Hm Hg.
  rewrite (weighted_mean_loss_vector _ _ n m) by done.
  assert (map (fun i => fmul (entry loss [i]) (fdiv (Rmax (entry nuv [i]) 0) m))
              (seq 0 n) = map Finite (map g (seq 0 n))) as ->.
  { rewrite map_map. apply map_seq_ext. intros i Hi.
    rewrite fdiv_nonzero by done. simpl. by rewrite Hg. }
  rewrite fmean_Finite by (destruct n; [lia|done]).
  by rewrite length_map, length_seq.
Qed.

Lemma tensor_max_bounds nuv n m i :
  shape nuv = [n] -> tensor_max nuv = Ok m -> (i < n)%nat ->
  entry nuv [i] <= m.
Proof.
  intros En Em Hi. destruct (tensor_max_spec _ _ Em) as [_ Hub].
  apply Hub. rewrite (flat_vector nuv n En).
  apply (in_map (fun i => entry nuv [i])), in_seq. lia.
Qed.

Lemma tensor_max_attained nuv n m :
  shape nuv = [n] -> tensor_max nuv = Ok m ->
  exists k, (k < n)%nat /\ entry nuv [k] = m.
Proof.
  intros En Em. destruct (tensor_max_spec _ _ Em) as [Hin _].
  rewrite (flat_vector nuv n En) in Hin.
  apply in_map_iff in Hin as (k & Hk & Hkn). apply in_seq in Hkn.
  exists k. split; [lia|done].
Qed.

(** X15: when the largest net user value of the batch is not 0, every
    weight of the normalisation is a number between 0 and 1, and when it
    is positive an example that attains it has weight 1. *)
Theorem normalized_weights_in_unit_interval (net_user_value : tensor R)
    (B : nat) (m : R) :
  shape net_user_value = [B] ->
  tensor_max net_user_value = Ok m ->
  m <> 0 ->
  exists w,
    normalize_net_user_value net_user_value = Ok w
    /\ (forall i, (i < B)%nat ->
          exists x, entry w [i] = Finite x /\ 0 <= x <= 1)
    /\ (0 < m -> exists k, (k < B)%nat /\ entry w [k] = Finite 1).
Proof.
  intros En Em Hm. rewrite (normalize_unfold _ _ Em).
  eexists. split; [reflexivity|]. split.
  - intros i Hi. simpl. rewrite fdiv_nonzero by done.
    eexists. split; [reflexivity|].
    pose proof (tensor_max_bounds _ _ _ _ En Em Hi) as Hle.
    split; [by apply weight_nonneg|].
    unfold Rmax. destruct (Rle_dec (entry net_user_value [i]) 0).
    + unfold Rdiv. lra.
    + assert (0 < m) by lra. apply Rmult_le_reg_r with m; [lra|].
      unfold Rdiv. rewrite Rmult_assoc, Rinv_l by lra. lra.
  - intros Hpos. destruct (tensor_max_attained _ _ _ En Em) as (k & Hk & Ek).
    exists k. split; [done|]. simpl. rewrite fdiv_nonzero by done.
    rewrite Ek, Rmax_left by lra. f_equal. by field.
Qed.

Lemma normalized_weights_in_unit_interval_witness :
  exists w,
    normalize_net_user_value (vector 0 [1; 4; -2]) = Ok w
    /\ exists x, entry w [0%nat] = Finite x /\ 0 <= x <= 1.
Proof.
  assert (Em : tensor_max (vector 0 [1; 4; -2]) = Ok 4).
  { unfold tensor_max. simpl. f_equal.
    rewrite (Rmax_right 1 4) by lra. apply Rmax_left. lra. }
  destruct (normalized_weights_in_unit_interval (vector 0 [1; 4; -2]) 3 4
              eq_refl Em ltac:(lra)) as (w & E & H & _).
  exists w. split; [exact E|]. apply H. lia.
Defined.

(** X16: when every net user value of the batch is negative, no
    division by zero happens: every weight is 0 and the weighted mean
    loss is 0. *)
Theorem negative_batch_has_zero_loss (loss net_user_value : tensor R)
    (B : nat) (m : R) :
  shape loss = [B] -> shape net_user_value = [B] -> (1 <= B)%nat ->
  tensor_max net_user_value = Ok m ->
  m < 0 ->
  (exists w, normalize_net_user_value net_user_value = Ok w
             /\ forall i, (i < B)%nat -> entry w [i] = Finite 0)
  /\ weighted_mean_loss loss net_user_value = Ok (Finite 0).
Proof.
  intros El En HB Em Hm.
  assert (Hz : forall i, (i < B)%nat ->
            Rmax (entry net_user_value [i]) 0 / m = 0).
  { intros i Hi. pose proof (tensor_max_bounds _ _ _ _ En Em Hi).
    rewrite Rmax_right by lra. unfold Rdiv. lra. }
  split.
  - rewrite (normalize_unfold _ _ Em). eexists. split; [reflexivity|].
    intros i Hi. simpl. rewrite fdiv_nonzero by lra. by rewrite Hz.
  - rewrite (weighted_mean_loss_finite _ _ B m (fun _ => 0)); try done.
    + rewrite (rsum_constant B _ 0) by done. do 2 f_equal.
      unfold Rdiv. lra.
    + lra.
    + intros i Hi. rewrite Hz by done. lra.
Qed.

Lemma negative_batch_has_zero_loss_witness :
  weighted_mean_loss (vector 0 [3; 5]) (vector 0 [-1; -2]) = Ok (Finite 0).
Proof.
  apply (proj2 (negative_batch_has_zero_loss (vector 0 [3; 5])
                  (vector 0 [-1; -2]) 2 (-1) eq_refl eq_refl ltac:(lia)
                  ltac:(unfold tensor_max; simpl; f_equal;
                        apply Rmax_left; lra)
                  ltac:(lra))).
Defined.

Lemma sum_none (x : R) k a n :
  (k < a)%nat ->
  fold_right Rplus 0
    (map (fun i => if (i =? k)%nat then x else 0) (seq a n)) = 0.
Proof.
  revert a. induction n as [|n IH]; intros a Hk; [done|].
  cbn [seq map fold_right].
  destruct (Nat.eqb_spec a k); [lia|]. rewrite IH by lia. lra.
Qed.

Lemma sum_single (x : R) k a n :
  (a <= k < a + n)%nat ->
  fold_right Rplus 0
    (map (fun i => if (i =? k)%nat then x else 0) (seq a n)) = x.
Proof.
  revert a. induction n as [|n IH]; intros a Hk; [lia|].
  cbn [seq map fold_right]. destruct (Nat.eqb_spec a k) as [->|Hne].
  - rewrite sum_none by lia. lra.
  - rewrite IH by lia. lra.
Qed.

(** X17: in a batch with exactly one positive net user value, all
    others being at most 0, the weighted mean loss is the softmax loss of
    that one example divided by the batch size. *)
Theorem one_positive_example_loss (loss net_user_value : tensor R)
    (B k : nat) (V : R) :
  shape loss = [B] -> shape net_user_value = [B] ->
  (k < B)%nat -> entry net_user_value [k] = V -> 0 < V ->
  (forall i, (i < B)%nat -> i <> k -> entry net_user_value [i] <= 0) ->
  weighted_mean_loss loss net_user_value
  = Ok (Finite (entry loss [k] / INR B)).
Proof.
  intros El En Hk EV HV Hrest.
  assert (Em : tensor_max net_user_value = Ok V).
  { apply tensor_max_intro; rewrite (flat_vector _ B En).
    - rewrite <- EV. apply (in_map (fun i => entry net_user_value [i])).
      apply in_seq. lia.
    - intros y Hy. apply in_map_iff in Hy as (i & <- & Hi).
      apply in_seq in Hi. destruct (Nat.eq_dec i k) as [->|Hne]; [lra|].
      specialize (Hrest i ltac:(lia) Hne). lra. }
  rewrite (weighted_mean_loss_finite _ _ B V
             (fun i => if (i =? k)%nat then entry loss [k] else 0));
    [| done | done | lia | done | lra |].
  - unfold rsum. rewrite sum_single by lia. done.
  - intros i Hi. destruct (Nat.eqb_spec i k) as [->|Hne].
    + rewrite EV, Rmax_left by lra. field. lra.
    + rewrite Rmax_right by (by apply Hrest). unfold Rdiv. lra.
Qed.

Lemma one_positive_example_loss_witness :
  weighted_mean_loss (vector 0 [3; 5; 7]) (vector 0 [-1; 2; 0])
  = Ok (Finite (5 / INR 3)).
Proof.
  apply (one_positive_example_loss (vector 0 [3; 5; 7]) (vector 0 [-1; 2; 0])
           3 1 2 eq_refl eq_refl ltac:(lia) eq_refl ltac:(lra)).
  intros i Hi Hne. destruct i as [|[|[|i]]]; simpl; [lra|done|lra|exfalso; lia].
Defined.

Lemma tensor_max_scale c nuv n m :
  shape nuv = [n] -> 0 < c -> tensor_max nuv = Ok m ->
  tensor_max (scale c nuv) = Ok (c * m).
Proof.
  intros En Hc Em. destruct (tensor_max_spec _ _ Em) as [Hin Hub].
  rewrite (flat_vector nuv n En) in Hin, Hub.
  apply tensor_max_intro; rewrite (flat_vector (scale c nuv) n En); simpl.
  - apply in_map_iff in Hin as (k & <- & Hk).
    apply (in_map (fun i => c * entry nuv [i])), Hk.
  - intros y Hy. apply in_map_iff in Hy as (i & <- & Hi).
    apply Rmult_le_compat_l; [lra|]. apply Hub.
    apply (in_map (fun i => entry nuv [i])), Hi.
Qed.

Lemma weighted_mean_loss_scale (loss net_user_value : tensor R)
    (B : nat) (c : R) :
  shape loss = [B] -> shape net_user_value = [B] -> 0 < c ->
  weighted_mean_loss loss (scale c net_user_value)
  = weighted_mean_loss loss net_user_value.
Proof.
  intros El En Hc.
  destruct (tensor_max net_user_value) as [m|e] eqn:Em.
  - rewrite (weighted_mean_loss_vector loss net_user_value B m) by done.
    rewrite (weighted_mean_loss_vector loss (scale c net_user_value) B (c * m))
      by (try done; by apply (tensor_max_scale c _ B)).
    f_equal. f_equal. apply map_seq_ext. intros i Hi. simpl. f_equal.
    unfold fdiv.
    destruct (Req_dec_T m 0) as [->|Hm].
    + destruct (Req_dec_T (c * 0) 0) as [_|Hne]; [done|]. exfalso. lra.
    + destruct (Req_dec_T (c * m) 0) as [E|_]; [exfalso; nra|].
      f_equal. replace 0 with (c * 0) at 1 by lra.
      rewrite RmaxRmult by lra. field. lra.
  - unfold weighted_mean_loss, normalize_net_user_value.
    assert (tensor_max (scale c net_user_value) = Raise e) as ->; [|by rewrite Em].
    unfold tensor_max in *. rewrite (flat_vector _ B En) in Em.
    rewrite (flat_vector (scale c net_user_value) B En).
    destruct B; [done|discriminate].
Qed.

Lemma nth_scaled c (w : list R) k :
  nth k (map (Rmult c) w) 0 = c * nth k w 0.
Proof.
  revert k. induction w as [|x w IH]; intros [|k]; simpl; try lra. apply IH.
Qed.

Lemma rsum_scaled n (f : nat -> R) c :
  rsum n (fun k => c * f k) = c * rsum n f.
Proof.
  unfold rsum. induction (seq 0 n) as [|i l IH]; simpl; [lra|].
  rewrite IH. lra.
Qed.

(** X18: without position debiasing, multiplying every user value
    weight by one positive number changes nothing: the loss returned is
    the same. *)
Theorem loss_invariant_under_weight_scaling
    theta num_items user_id_hash_size DU IU item_id_hash_size DI II
    user_value_weights knn_module
    (user_embedding item_embeddings : tensor R) (position : tensor Z)
    (labels : tensor R) (B D : nat) (c : R) :
  shape user_embedding = [B; D] ->
  shape item_embeddings = [B; D] ->
  shape labels = [B; length user_value_weights] ->
  0 < c ->
  train_forward_loss
    (TwoTowerBaseRetrieval_init theta num_items user_id_hash_size DU IU
       item_id_hash_size DI II (map (Rmult c) user_value_weights)
       knn_module false)
    user_embedding item_embeddings position labels
  = train_forward_loss
      (TwoTowerBaseRetrieval_init theta num_items user_id_hash_size DU IU
         item_id_hash_size DI II user_value_weights knn_module false)
      user_embedding item_embeddings position labels.
Proof.
  intros Hu Hi Hlab Hc.
  destruct (softmax_loss_batch _ _ B D Hu Hi)
    as (it & scores & loss & _ & _ & _ & _ & _ & Es & Hl & _).
  pose proof (net_user_value_plain theta num_items user_id_hash_size DU IU
                item_id_hash_size DI II user_value_weights knn_module
                position labels B Hlab) as E1.
  assert (Hlab' : shape labels = [B; length (map (Rmult c) user_value_weights)])
    by (by rewrite length_map).
  pose proof (net_user_value_plain theta num_items user_id_hash_size DU IU
                item_id_hash_size DI II (map (Rmult c) user_value_weights)
                knn_module position labels B Hlab') as E2.
  set (nuv := Tensor [B] _) in E1. set (nuv' := Tensor [B] _) in E2.
  rewrite (train_forward_loss_blocks _ _ _ _ _ loss nuv (Finite 0) false Es E1)
    by apply init_enable_position_debiasing.
  rewrite (train_forward_loss_blocks _ _ _ _ _ loss nuv' (Finite 0) false Es E2)
    by apply init_enable_position_debiasing.
  rewrite (weighted_mean_loss_ext loss nuv' (scale c nuv) B); try done.
  - by rewrite (weighted_mean_loss_scale loss nuv B c).
  - intros i _. simpl. rewrite length_map, <- rsum_scaled.
    apply rsum_ext. intros k _. rewrite nth_scaled. lra.
Qed.

Lemma loss_invariant_under_weight_scaling_witness :
  train_forward_loss
    (TwoTowerBaseRetrieval_init zero_parameters 5 4 2 3 3 2 3
       (map (Rmult 3) [1; 0]) no_knn false)
    (matrix 0 2 2 [[1; 0]; [0; 1]]) (matrix 0 2 2 [[1; 0]; [0; 1]])
    (vector 0%Z [0; 0]%Z) (matrix 0 2 2 [[1; 0]; [2; 0]])
  = train_forward_loss
      (TwoTowerBaseRetrieval_init zero_parameters 5 4 2 3 3 2 3 [1; 0]
         no_knn false)
      (matrix 0 2 2 [[1; 0]; [0; 1]]) (matrix 0 2 2 [[1; 0]; [0; 1]])
      (vector 0%Z [0; 0]%Z) (matrix 0 2 2 [[1; 0]; [2; 0]]).
Proof.
  apply (loss_invariant_under_weight_scaling zero_parameters 5 4 2 3 3 2 3
           [1; 0] no_knn (matrix 0 2 2 [[1; 0]; [0; 1]])
           (matrix 0 2 2 [[1; 0]; [0; 1]]) (vector 0%Z [0; 0]%Z)
           (matrix 0 2 2 [[1; 0]; [2; 0]]) 2 2 3 eq_refl eq_refl eq_refl).
  lra.
Defined.

(** X19: on an empty batch the normalisation raises: [torch.max] has no
    element to take, and no loss is returned. *)
Theorem empty_batch_raises (loss net_user_value : tensor R) :
  shape net_user_value = [0%nat] ->
  normalize_net_user_value net_user_value
  = Raise (RuntimeError EmptyReduction)
  /\ weighted_mean_loss loss net_user_value
     = Raise (RuntimeError EmptyReduction).
Proof.
  intros En.
  assert (E : tensor_max net_user_value = Raise (RuntimeError EmptyReduction)).
  { unfold tensor_max. by rewrite (flat_vector _ 0 En). }
  unfold weighted_mean_loss, normalize_net_user_value. by rewrite E.
Qed.

Lemma empty_batch_raises_witness :
  weighted_mean_loss (vector 0 []) (vector 0 [])
  = Raise (RuntimeError EmptyReduction).
Proof. apply (proj2 (empty_batch_raises (vector 0 []) (vector 0 []) eq_refl)). Defined.

(** ** The loss, further *)

Lemma rsum_1 (f : nat -> R) : rsum 1 f = f 0%nat.
Proof. unfold rsum. simpl. lra. Qed.

(** X20: in a batch of one example the softmax loss is 0 whatever the
    embeddings, so without position debiasing the loss returned is 0 as
    soon as the net user value of the example is not 0. *)
Theorem single_example_batch_loss
    theta num_items user_id_hash_size DU IU item_id_hash_size DI II
    user_value_weights knn_module
    (user_embedding item_embeddings : tensor R) (position : tensor Z)
    (labels : tensor R) (D : nat) :
  shape user_embedding = [1%nat; D] ->
  shape item_embeddings = [1%nat; D] ->
  shape labels = [1%nat; length user_value_weights] ->
  (exists loss, softmax_loss user_embedding item_embeddings = Ok loss
                /\ shape loss = [1%nat] /\ entry loss [0%nat] = 0)
  /\ (rsum (length user_value_weights)
           (fun k => entry labels [0%nat; k] * nth k user_value_weights 0)
      <> 0 ->
      train_forward_loss
        (TwoTowerBaseRetrieval_init theta num_items user_id_hash_size DU IU
           item_id_hash_size DI II user_value_weights knn_module false)
        user_embedding item_embeddings position labels
      = Ok (Finite 0)).
Proof.
  intros Hu Hi Hlab.
  destruct (softmax_loss_batch _ _ 1 D Hu Hi)
    as (it & scores & loss & _ & _ & _ & _ & _ & Es & Hl & Hloss).
  assert (H0 : entry loss [0%nat] = 0).
  { destruct (Hloss 0%nat ltac:(lia)) as [-> _].
    rewrite rsum_1, ln_exp. lra. }
  split; [by exists loss|]. intros Hv.
  pose proof (net_user_value_plain theta num_items user_id_hash_size DU IU
                item_id_hash_size DI II user_value_weights knn_module
                position labels 1 Hlab) as Eb.
  set (nuv := Tensor [1%nat] _) in Eb.
  rewrite (train_forward_loss_blocks _ _ _ _ _ loss nuv (Finite 0) false Es Eb)
    by apply init_enable_position_debiasing.
  rewrite (weighted_mean_loss_finite loss nuv 1 (entry nuv [0%nat])
             (fun _ => 0)); try done.
  - simpl. rewrite rsum_1. do 2 f_equal. unfold Rdiv. lra.
  - intros i Hi'. replace i with 0%nat by lia. rewrite H0. lra.
Qed.

Lemma single_example_batch_loss_witness :
  train_forward_loss demo_model
    (matrix 0 1 2 [[3; 1]]) (matrix 0 1 2 [[2; 5]])
    (vector 0%Z [0%Z]) (matrix 0 1 2 [[4; 0]])
  = Ok (Finite 0).
Proof.
  apply (proj2 (single_example_batch_loss zero_parameters 5 4 2 3 3 2 3
                  [1; 0] no_knn (matrix 0 1 2 [[3; 1]])
                  (matrix 0 1 2 [[2; 5]]) (vector 0%Z [0%Z])
                  (matrix 0 1 2 [[4; 0]]) 2 eq_refl eq_refl eq_refl)).
  unfold rsum. simpl. lra.
Defined.

(** X21: labels whose width is not the number of user value weights
    make the loss raise: the product of labels and weights does not
    exist. *)
Theorem label_width_mismatch
    theta num_items user_id_hash_size DU IU item_id_hash_size DI II
    user_value_weights knn_module debias
    (user_embedding item_embeddings : tensor R) (position : tensor Z)
    (labels : tensor R) (B D T : nat) :
  shape user_embedding = [B; D] ->
  shape item_embeddings = [B; D] ->
  shape labels = [B; T] ->
  T <> length user_value_weights ->
  train_forward_loss
    (TwoTowerBaseRetrieval_init theta num_items user_id_hash_size DU IU
       item_id_hash_size DI II user_value_weights knn_module debias)
    user_embedding item_embeddings position labels
  = Raise (RuntimeError SizeMismatch).
Proof.
  intros Hu Hi Hlab HT.
  destruct (softmax_loss_batch _ _ B D Hu Hi)
    as (it & scores & loss & _ & _ & _ & _ & _ & Es & _).
  unfold train_forward_loss. rewrite Es. simpl.
  unfold debiased_net_user_value. rewrite init_user_value_weights. simpl.
  unfold matmul. rewrite Hlab. simpl.
  by destruct (Nat.eqb_spec T (length user_value_weights)).
Qed.

Lemma label_width_mismatch_witness :
  train_forward_loss demo_model
    (matrix 0 1 2 [[1; 0]]) (matrix 0 1 2 [[0; 1]])
    (vector 0%Z [0%Z]) (matrix 0 1 3 [[1; 0; 2]])
  = Raise (RuntimeError SizeMismatch).
Proof.
  apply (label_width_mismatch zero_parameters 5 4 2 3 3 2 3 [1; 0] no_knn
           false (matrix 0 1 2 [[1; 0]]) (matrix 0 1 2 [[0; 1]])
           (vector 0%Z [0%Z]) (matrix 0 1 3 [[1; 0; 2]]) 1 2 3
           eq_refl eq_refl eq_refl).
  simpl. lia.
Defined.

(** X22: without position debiasing the position indices are never
    read: the loss is the same for any two position tensors, of any
    shape and content. *)
Theorem position_ignored_without_debiasing
    theta num_items user_id_hash_size DU IU item_id_hash_size DI II
    user_value_weights knn_module
    (user_embedding item_embeddings : tensor R) (position position' : tensor Z)
    (labels : tensor R) :
  train_forward_loss
    (TwoTowerBaseRetrieval_init theta num_items user_id_hash_size DU IU
       item_id_hash_size DI II user_value_weights knn_module false)
    user_embedding item_embeddings position labels
  = train_forward_loss
      (TwoTowerBaseRetrieval_init theta num_items user_id_hash_size DU IU
         item_id_hash_size DI II user_value_weights knn_module false)
      user_embedding item_embeddings position' labels.
Proof.
  unfold train_forward_loss, debiased_net_user_value.
  rewrite init_user_value_weights, init_enable_position_debiasing.
  simpl. destruct (softmax_loss _ _); simpl; [|done].
  by destruct (matmul labels _).
Qed.

(** X23: with position debiasing, a position index outside the
    position-bias table of 100 rows (negative, or 100 and more) makes
    the loss raise IndexError. *)
Theorem position_out_of_range
    theta num_items user_id_hash_size DU IU item_id_hash_size DI II
    user_value_weights knn_module
    (user_embedding item_embeddings : tensor R) (position : tensor Z)
    (labels : tensor R) (B D : nat) :
  shape user_embedding = [B; D] ->
  shape item_embeddings = [B; D] ->
  shape labels = [B; length user_value_weights] ->
  ~ ids_in_range 100 position ->
  train_forward_loss
    (TwoTowerBaseRetrieval_init theta num_items user_id_hash_size DU IU
       item_id_hash_size DI II user_value_weights knn_module true)
    user_embedding item_embeddings position labels
  = Raise IndexError.
Proof.
  intros Hu Hi Hlab Hpos.
  destruct (softmax_loss_batch _ _ B D Hu Hi)
    as (it & scores & loss & _ & _ & _ & _ & _ & Es & _).
  unfold train_forward_loss. rewrite Es. simpl.
  unfold debiased_net_user_value. rewrite init_user_value_weights. simpl.
  rewrite (net_user_value_matmul _ _ B Hlab). simpl.
  rewrite init_enable_position_debiasing. simpl.
  rewrite init_position_bias_net_user_value. simpl.
  by rewrite embedding_out_of_range.
Qed.

Lemma position_out_of_range_witness :
  train_forward_loss
    (TwoTowerBaseRetrieval_init zero_parameters 5 4 2 3 3 2 3 [1; 0]
       no_knn true)
    (matrix 0 1 2 [[1; 0]]) (matrix 0 1 2 [[0; 1]])
    (vector 0%Z [100%Z]) (matrix 0 1 2 [[1; 0]])
  = Raise IndexError.
Proof.
  apply (position_out_of_range zero_parameters 5 4 2 3 3 2 3 [1; 0] no_knn
           (matrix 0 1 2 [[1; 0]]) (matrix 0 1 2 [[0; 1]])
           (vector 0%Z [100%Z]) (matrix 0 1 2 [[1; 0]]) 1 2
           eq_refl eq_refl eq_refl).
  intros H. apply forallb_in_range in H. discriminate H.
Defined.

Lemma rsum_nonneg n (f : nat -> R) :
  (forall i, 0 <= f i) -> 0 <= rsum n f.
Proof.
  intros H. unfold rsum. apply sum_nonneg, List.Forall_forall.
  intros x Hx. apply in_map_iff in Hx as (i & <- & _). apply H.
Qed.

(** X24: with position debiasing, valid position indices and a
    largest debiased net user value other than 0, the loss returned is a
    non-negative number: the weighted softmax loss and the squared-error
    term are both non-negative. *)
Theorem debiased_loss_nonneg
    theta num_items user_id_hash_size DU IU item_id_hash_size DI II
    user_value_weights knn_module
    (user_embedding item_embeddings : tensor R) (position : tensor Z)
    (labels : tensor R) (B D : nat) :
  let debiased :=
    TwoTowerBaseRetrieval_init theta num_items user_id_hash_size DU IU
      item_id_hash_size DI II user_value_weights knn_module true in
  shape user_embedding = [B; D] ->
  shape item_embeddings = [B; D] ->
  shape labels = [B; length user_value_weights] ->
  shape position = [B] ->
  ids_in_range 100 position ->
  (1 <= B)%nat ->
  exists net_user_value position_bias_loss,
    debiased_net_user_value debiased position labels
    = Ok (net_user_value, position_bias_loss)
    /\ forall m, tensor_max net_user_value = Ok m -> m <> 0 ->
         exists r,
           train_forward_loss debiased user_embedding item_embeddings
                              position labels = Ok (Finite r)
           /\ 0 <= r.
Proof.
  intros debiased Hu Hi Hlab Hp Hr HB.
  destruct (softmax_loss_batch _ _ B D Hu Hi)
    as (it & scores & loss & _ & _ & _ & _ & _ & Es & Hl & Hloss).
  destruct (net_user_value_debiased theta num_items user_id_hash_size DU IU
              item_id_hash_size DI II user_value_weights knn_module
              position labels B Hlab Hp Hr HB)
    as (bias & nuv' & _ & _ & Hns & _ & Edeb).
  eexists nuv', _. split; [exact Edeb|]. intros m Em Hm.
  destruct (weighted_mean_loss_nonneg loss nuv' B m Hl Hns HB Em Hm)
    as (r & Er & Hrpos); [intros i Hi'; by apply Hloss|].
  unfold debiased.
  rewrite (train_forward_loss_blocks _ _ _ _ _ loss nuv' _ true Es Edeb)
    by apply init_enable_position_debiasing.
  rewrite Er. simpl. eexists. split; [reflexivity|].
  apply Rplus_le_le_0_compat; [done|].
  apply Rmult_le_pos.
  - apply rsum_nonneg. intros i. apply Rle_0_sqr.
  - apply Rlt_le, Rinv_0_lt_compat, lt_0_INR. lia.
Qed.

Lemma debiased_loss_nonneg_witness :
  exists r,
    train_forward_loss
      (TwoTowerBaseRetrieval_init zero_parameters 5 4 2 3 3 2 3 [1; 0]
         no_knn true)
      (matrix 0 1 2 [[1; 0]]) (matrix 0 1 2 [[0; 1]])
      (vector 0%Z [7%Z]) (matrix 0 1 2 [[3; 0]])
    = Ok (Finite r)
    /\ 0 <= r.
Proof.
  destruct (debiased_loss_nonneg zero_parameters 5 4 2 3 3 2 3 [1; 0] no_knn
              (matrix 0 1 2 [[1; 0]]) (matrix 0 1 2 [[0; 1]])
              (vector 0%Z [7%Z]) (matrix 0 1 2 [[3; 0]]) 1 2
              eq_refl eq_refl eq_refl eq_refl
              (ids_in_range_vector 100 [7%Z] eq_refl) ltac:(lia))
    as (nuv & pbl & E & H).
  destruct (net_user_value_debiased zero_parameters 5 4 2 3 3 2 3 [1; 0]
              no_knn (vector 0%Z [7%Z]) (matrix 0 1 2 [[3; 0]]) 1
              eq_refl eq_refl (ids_in_range_vector 100 [7%Z] eq_refl)
              ltac:(lia))
    as (bias & nuv' & _ & Hb & Hs' & Hn & E').
  rewrite E' in E. injection E as <- _.
  apply (H (entry nuv' [0%nat])).
  - unfold tensor_max. by rewrite (flat_vector nuv' 1 Hs').
  - rewrite Hn by lia. rewrite Hb. simpl. unfold rsum. simpl. lra.
Defined.
